(** * AI quiz generator: the response reconciliation layer of [services/ai_service.py]

    A shallow embedding of [AIService] (parser, validator, fallback bank,
    quiz orchestrator, feedback generator) and the properties its
    specification states about it.

    Conventions of the embedding.
    - Python [str] is [string]; a character is a code point below 256, and
      [isspace], [lower] follow Python on that range.
    - Values decoded from JSON are [pyval]; a Python [dict] with string keys
      is an association list in insertion order with unique keys.
    - A Python [float] is kept as the JSON token that denotes it; what the
      interpreter does with it ([bool], [int], [repr]) is the interface
      [PyFloat], so every result holds for IEEE doubles in particular.
    - Exceptions and the side effects of the service (diagnostic prints,
      requests to the model, sleeps) are threaded through the monad [M].
    - The limits of the interpreter (depth of recursion, size of integer
      literals) are not modelled. *)

From Stdlib Require Import String Ascii ZArith QArith List Lia Bool Arith.
From Stdlib Require Import DecimalString.
Import ListNotations.
Close Scope Q_scope.
Open Scope list_scope.
Open Scope string_scope.

Set Implicit Arguments.
Set Warnings "-register-all".

(* ================================================================== *)
(** ** Python strings *)
(* ================================================================== *)

Module Str.

(** [str.isspace] on one character (code points below 256). *)
Definition isspace (c : ascii) : bool :=
  let n := nat_of_ascii c in
  (((9 <=? n) && (n <=? 13)) || ((28 <=? n) && (n <=? 32))
  || (n =? 133) || (n =? 160))%nat.

Definition isdigit (c : ascii) : bool :=
  let n := nat_of_ascii c in ((48 <=? n) && (n <=? 57))%nat.

Definition digit_val (c : ascii) : Z := Z.of_nat (nat_of_ascii c - 48).

Definition lower_char (c : ascii) : ascii :=
  let n := nat_of_ascii c in
  if (((65 <=? n) && (n <=? 90))
      || ((192 <=? n) && (n <=? 222) && negb (n =? 215)))%nat
  then ascii_of_nat (n + 32) else c.

(** [s.lower()] *)
Fixpoint lower (s : string) : string :=
  match s with
  | EmptyString => EmptyString
  | String c s' => String (lower_char c) (lower s')
  end.

Definition is_empty (s : string) : bool :=
  match s with EmptyString => true | _ => false end.

Fixpoint mem (c : ascii) (chars : string) : bool :=
  match chars with
  | EmptyString => false
  | String d r => Ascii.eqb c d || mem c r
  end.

(** Strip the characters satisfying [p] from the left, from the right. *)
Fixpoint lstrip_by (p : ascii -> bool) (s : string) : string :=
  match s with
  | EmptyString => EmptyString
  | String c s' => if p c then lstrip_by p s' else s
  end.

Fixpoint rstrip_by (p : ascii -> bool) (s : string) : string :=
  match s with
  | EmptyString => EmptyString
  | String c s' =>
      let r := rstrip_by p s' in
      if is_empty r && p c then EmptyString else String c r
  end.

(** [s.strip()] and [s.strip(chars)] *)
Definition strip (s : string) : string := rstrip_by isspace (lstrip_by isspace s).

Definition strip_chars (chars : string) (s : string) : string :=
  rstrip_by (fun c => mem c chars) (lstrip_by (fun c => mem c chars) s).

(** [s.startswith(p)] *)
Definition startswith (s p : string) : bool := String.prefix p s.

(** [needle in hay] *)
Fixpoint contains (needle hay : string) : bool :=
  String.prefix needle hay
  || match hay with
     | EmptyString => false
     | String _ hay' => contains needle hay'
     end.

(** [s.find(c)] and [s.rfind(c)] for a one-character argument: the index of
    the first (last) occurrence, -1 when there is none. *)
Fixpoint find (c : ascii) (s : string) : Z :=
  match s with
  | EmptyString => (-1)%Z
  | String d s' =>
      if Ascii.eqb c d then 0%Z
      else let i := find c s' in if (i <? 0)%Z then (-1)%Z else (i + 1)%Z
  end.

Fixpoint rfind (c : ascii) (s : string) : Z :=
  match s with
  | EmptyString => (-1)%Z
  | String d s' =>
      let i := rfind c s' in
      if (0 <=? i)%Z then (i + 1)%Z
      else if Ascii.eqb c d then 0%Z else (-1)%Z
  end.

Fixpoint take (n : nat) (s : string) : string :=
  match n, s with
  | S k, String c s' => String c (take k s')
  | _, _ => EmptyString
  end.

Fixpoint drop (n : nat) (s : string) : string :=
  match n, s with
  | S k, String _ s' => drop k s'
  | _, _ => s
  end.

(** [s[:n]] and [s[n:]] for a non-negative [n]. *)
Definition slice_to (s : string) (n : Z) : string := take (Z.to_nat n) s.
Definition slice_from (s : string) (n : Z) : string := drop (Z.to_nat n) s.

(** [s.split()]: maximal runs of non-whitespace characters. *)
Fixpoint split_from (cur : string) (s : string) : list string :=
  match s with
  | EmptyString => if is_empty cur then [] else [cur]
  | String c s' =>
      if isspace c
      then (if is_empty cur then split_from EmptyString s' else (cur :: split_from EmptyString s')%list)
      else split_from (cur ++ String c EmptyString) s'
  end.

Definition split (s : string) : list string := split_from EmptyString s.

(** [sep.join(parts)] *)
Definition join (sep : string) (parts : list string) : string :=
  String.concat sep parts.

(** [str(n)] for an [int]. *)
Definition of_Z (n : Z) : string := NilZero.string_of_int (Z.to_int n).

Definition newline : string := String (ascii_of_nat 10) EmptyString.

End Str.

(* ================================================================== *)
(** ** Exceptions, outcomes *)
(* ================================================================== *)

(** The exception classes the service can meet. [JSONDecodeError] is a
    subclass of [ValueError]; all are subclasses of [Exception].
    [ApiError] stands for whatever the client library raises, and
    [GeminiError e] is the plain [Exception] that [_make_request] raises
    around the error [e] it caught. *)
Inductive exn : Type :=
| JSONDecodeError
| ValueError
| TypeError
| AttributeError
| OverflowError
| ApiError (msg : string)
| GeminiError (cause : exn).

Definition is_JSONDecodeError (e : exn) : bool :=
  match e with JSONDecodeError => true | _ => false end.

(** [except (ValueError, TypeError)] *)
Definition is_ValueError_or_TypeError (e : exn) : bool :=
  match e with JSONDecodeError | ValueError | TypeError => true | _ => false end.

(** [except Exception] *)
Definition is_Exception (e : exn) : bool := true.

Inductive outcome (A : Type) : Type :=
| Ok (a : A)
| Raise (e : exn).
Arguments Ok {A} a.
Arguments Raise {A} e.

(* ================================================================== *)
(** ** Python values *)
(* ================================================================== *)

Inductive pyval : Type :=
| PNone
| PBool (b : bool)
| PInt (n : Z)
| PFloat (token : string)
| PStr (s : string)
| PList (items : list pyval)
| PDict (entries : list (string * pyval)).

Definition pydict : Type := list (string * pyval).

(** What the interpreter does with a float, given the JSON token that
    denotes it: truth value, [int(x)] ([ValueError] for a NaN,
    [OverflowError] for an infinity) and [repr(x)]. *)
Class PyFloat : Type := {
  float_bool : string -> bool;
  float_int  : string -> outcome Z;
  float_repr : string -> string
}.

Module Dict.

(** [d.get(k)] *)
Fixpoint get (d : pydict) (k : string) : option pyval :=
  match d with
  | [] => None
  | (k', v) :: d' => if String.eqb k k' then Some v else get d' k
  end.

(** [d.get(k, default)] *)
Definition get_default (d : pydict) (k : string) (default : pyval) : pyval :=
  match get d k with Some v => v | None => default end.

(** [k in d] *)
Definition has (d : pydict) (k : string) : bool :=
  match get d k with Some _ => true | None => false end.

(** [d[k] = v]: replaces the value of an existing key in place, else
    appends the new key. *)
Fixpoint set (d : pydict) (k : string) (v : pyval) : pydict :=
  match d with
  | [] => [(k, v)]
  | (k', v') :: d' =>
      if String.eqb k k' then (k', v) :: d' else (k', v') :: set d' k v
  end.

Definition keys (d : pydict) : list string := map fst d.

End Dict.

(* ================================================================== *)
(** ** Built-in conversions: [bool(v)], [repr(v)], [str(v)], [int(v)] *)
(* ================================================================== *)

Module Py.

Definition dquote : ascii := ascii_of_nat 34.
Definition squote : ascii := ascii_of_nat 39.
Definition backslash : ascii := ascii_of_nat 92.

Definition hex_digit (n : nat) : ascii :=
  match String.get n "0123456789abcdef" with Some c => c | None => "0"%char end.

(** [repr] of one character of a string, inside quotes [q]. *)
Definition repr_char (q : ascii) (c : ascii) : string :=
  let n := nat_of_ascii c in
  if Ascii.eqb c backslash then String backslash (String backslash EmptyString)
  else if Ascii.eqb c q then String backslash (String q EmptyString)
  else if (n =? 9)%nat then String backslash "t"
  else if (n =? 10)%nat then String backslash "n"
  else if (n =? 13)%nat then String backslash "r"
  else if ((n <? 32) || (n =? 127) || ((128 <=? n) && (n <=? 160)) || (n =? 173))%nat
  then String backslash (String "x" (String (hex_digit (n / 16)) (String (hex_digit (n mod 16)) EmptyString)))
  else String c EmptyString.

Fixpoint repr_chars (q : ascii) (s : string) : string :=
  match s with
  | EmptyString => EmptyString
  | String c s' => repr_char q c ++ repr_chars q s'
  end.

(** [repr(s)] for a string: double quotes only when the string has a single
    quote and no double quote. *)
Definition repr_str (s : string) : string :=
  let q := if Str.mem squote s && negb (Str.mem dquote s) then dquote else squote in
  String q (repr_chars q s ++ String q EmptyString).

Section WithFloats.
Context {FP : PyFloat}.

(** Truth value of a value, as [if v:] and [not v] take it. *)
Definition truthy (v : pyval) : bool :=
  match v with
  | PNone => false
  | PBool b => b
  | PInt n => negb (n =? 0)%Z
  | PFloat t => float_bool t
  | PStr s => negb (Str.is_empty s)
  | PList l => match l with [] => false | _ => true end
  | PDict d => match d with [] => false | _ => true end
  end.

Fixpoint repr (v : pyval) : string :=
  match v with
  | PNone => "None"
  | PBool true => "True"
  | PBool false => "False"
  | PInt n => Str.of_Z n
  | PFloat t => float_repr t
  | PStr s => repr_str s
  | PList l => "[" ++ Str.join ", " (map repr l) ++ "]"
  | PDict d =>
      "{" ++ Str.join ", "
               (map (fun kv => match kv with (k, x) => repr_str k ++ ": " ++ repr x end) d)
          ++ "}"
  end.

(** [str(v)] *)
Definition str (v : pyval) : string :=
  match v with
  | PStr s => s
  | _ => repr v
  end.

(** Digits of a decimal literal given to [int]: single underscores are
    allowed between digits. [prev] tells whether the previous character was
    a digit. *)
Fixpoint int_digits (s : string) (acc : Z) (prev : bool) : option Z :=
  match s with
  | EmptyString => if prev then Some acc else None
  | String c s' =>
      if Str.isdigit c then int_digits s' (10 * acc + Str.digit_val c)%Z true
      else if Ascii.eqb c "_" && prev then int_digits s' acc false
      else None
  end.

(** The blanks that [int] skips around a literal. *)
Definition int_space (c : ascii) : bool :=
  let n := nat_of_ascii c in
  (((9 <=? n) && (n <=? 13)) || (n =? 32) || (n =? 133) || (n =? 160))%nat.

Definition int_of_str (s : string) : outcome Z :=
  let t := Str.rstrip_by int_space (Str.lstrip_by int_space s) in
  let r :=
    match t with
    | String "+" d => int_digits d 0 false
    | String "-" d => option_map Z.opp (int_digits d 0 false)
    | _ => int_digits t 0 false
    end in
  match r with Some n => Ok n | None => Raise ValueError end.

(** [int(v)] *)
Definition int (v : pyval) : outcome Z :=
  match v with
  | PInt n => Ok n
  | PBool b => Ok (if b then 1 else 0)%Z
  | PFloat t => float_int t
  | PStr s => int_of_str s
  | PNone | PList _ | PDict _ => Raise TypeError
  end.

(** [iter(v)]: what a [for] loop over [v] visits. A [dict] yields its keys,
    a [str] its characters; numbers, booleans and [None] are not iterable. *)
Definition iter (v : pyval) : outcome (list pyval) :=
  match v with
  | PList l => Ok l
  | PDict d => Ok (map (fun kv => PStr (fst kv)) d)
  | PStr s => Ok (map (fun c => PStr (String c EmptyString)) (list_ascii_of_string s))
  | PNone | PBool _ | PInt _ | PFloat _ => Raise TypeError
  end.

End WithFloats.

End Py.

(* ================================================================== *)
(** ** [json.loads] *)
(* ================================================================== *)

(** The decoder of the [json] module on a [str]: the JSON grammar with
    Python's extensions ([NaN], [Infinity], [-Infinity]), leading and
    trailing whitespace allowed, duplicate keys resolved to the last value.
    Every failure is a [JSONDecodeError]. An escape [\uXXXX] above [00FF]
    denotes a character outside the alphabet of this model and is refused. *)
Module Json.

Inductive token : Type :=
| TLBracket | TRBracket | TLBrace | TRBrace | TComma | TColon
| TString (s : string)
| TValue (v : pyval).          (* a number or a literal *)

Definition is_ws (c : ascii) : bool :=
  let n := nat_of_ascii c in
  ((n =? 32) || (n =? 9) || (n =? 10) || (n =? 13))%nat.

Definition hex_val (c : ascii) : option nat :=
  let n := nat_of_ascii c in
  if ((48 <=? n) && (n <=? 57))%nat then Some (n - 48)
  else if ((97 <=? n) && (n <=? 102))%nat then Some (n - 87)
  else if ((65 <=? n) && (n <=? 70))%nat then Some (n - 55)
  else None.

Definition hex4 (a b c d : ascii) : option nat :=
  match hex_val a, hex_val b, hex_val c, hex_val d with
  | Some x, Some y, Some z, Some w => Some (((x * 16 + y) * 16 + z) * 16 + w)
  | _, _, _, _ => None
  end.

Definition simple_escape (e : ascii) : option ascii :=
  if Ascii.eqb e Py.dquote then Some Py.dquote
  else if Ascii.eqb e Py.backslash then Some Py.backslash
  else if Ascii.eqb e "/" then Some "/"%char
  else if Ascii.eqb e "b" then Some (ascii_of_nat 8)
  else if Ascii.eqb e "f" then Some (ascii_of_nat 12)
  else if Ascii.eqb e "n" then Some (ascii_of_nat 10)
  else if Ascii.eqb e "r" then Some (ascii_of_nat 13)
  else if Ascii.eqb e "t" then Some (ascii_of_nat 9)
  else None.

Definition cons_char (c : ascii) (r : option (string * nat)) (used : nat)
  : option (string * nat) :=
  match r with
  | Some (body, n) => Some (String c body, n + used)
  | None => None
  end.

(** The body of a string literal, from just after its opening quote: the
    decoded text and the number of characters read, closing quote included. *)
Fixpoint scan_string (s : string) : option (string * nat) :=
  match s with
  | EmptyString => None
  | String c s' =>
      if Ascii.eqb c Py.dquote then Some (EmptyString, 1)
      else if Ascii.eqb c Py.backslash then
        match s' with
        | EmptyString => None
        | String e s'' =>
            match simple_escape e with
            | Some ch => cons_char ch (scan_string s'') 2
            | None =>
                if Ascii.eqb e "u" then
                  match s'' with
                  | String h1 (String h2 (String h3 (String h4 rest))) =>
                      match hex4 h1 h2 h3 h4 with
                      | Some code =>
                          if (code <? 256)%nat
                          then cons_char (ascii_of_nat code) (scan_string rest) 6
                          else None
                      | None => None
                      end
                  | _ => None
                  end
                else None
            end
        end
      else if (nat_of_ascii c <? 32)%nat then None
      else cons_char c (scan_string s') 1
  end.

(** The longest prefix of digits, and what follows it. *)
Fixpoint span_digits (s : string) : string * string :=
  match s with
  | String c s' =>
      if Str.isdigit c
      then let (d, r) := span_digits s' in (String c d, r)
      else (EmptyString, s)
  | EmptyString => (EmptyString, EmptyString)
  end.

Fixpoint digits_val (s : string) (acc : Z) : Z :=
  match s with
  | EmptyString => acc
  | String c s' => digits_val s' (10 * acc + Str.digit_val c)%Z
  end.

(** Integer part of a number: [0] or a digit [1-9] followed by digits. *)
Definition scan_int_part (s : string) : option (string * string) :=
  match s with
  | String c s' =>
      if Ascii.eqb c "0" then Some ("0", s')
      else if Str.isdigit c then Some (span_digits s)
      else None
  | EmptyString => None
  end.

(** Optional fraction [.digits] *)
Definition scan_frac (s : string) : string * string :=
  match s with
  | String "." s' =>
      let (d, r) := span_digits s' in
      if Str.is_empty d then (EmptyString, s) else (String "." d, r)
  | _ => (EmptyString, s)
  end.

(** Optional exponent [e], [E] with an optional sign and digits *)
Definition scan_exp (s : string) : string * string :=
  match s with
  | String e s' =>
      if Ascii.eqb e "e" || Ascii.eqb e "E" then
        let (sign, s'') :=
          match s' with
          | String "+" t => ("+", t)
          | String "-" t => ("-", t)
          | _ => (EmptyString, s')
          end in
        let (d, r) := span_digits s'' in
        if Str.is_empty d then (EmptyString, s)
        else (String e (sign ++ d), r)
      else (EmptyString, s)
  | EmptyString => (EmptyString, s)
  end.

(** A number: an [int] when it has neither fraction nor exponent, else a
    [float]. Returns the value and the number of characters read. *)
Definition scan_number (s : string) : option (pyval * nat) :=
  let (sign, s1) :=
    match s with
    | String "-" t => ("-", t)
    | _ => (EmptyString, s)
    end in
  match scan_int_part s1 with
  | None => None
  | Some (ip, s2) =>
      let (fp, s3) := scan_frac s2 in
      let (ep, _) := scan_exp s3 in
      let text := sign ++ ip ++ fp ++ ep in
      if Str.is_empty fp && Str.is_empty ep
      then Some (PInt (if Str.is_empty sign then digits_val ip 0
                       else - digits_val ip 0)%Z, String.length text)
      else Some (PFloat text, String.length text)
  end.

(** One token at the head of [s] (which does not start with whitespace) and
    its length. *)
Definition scan_token (s : string) : option (token * nat) :=
  match s with
  | EmptyString => None
  | String c s' =>
      if Ascii.eqb c "[" then Some (TLBracket, 1)
      else if Ascii.eqb c "]" then Some (TRBracket, 1)
      else if Ascii.eqb c "{" then Some (TLBrace, 1)
      else if Ascii.eqb c "}" then Some (TRBrace, 1)
      else if Ascii.eqb c "," then Some (TComma, 1)
      else if Ascii.eqb c ":" then Some (TColon, 1)
      else if Ascii.eqb c Py.dquote then
        match scan_string s' with
        | Some (body, n) => Some (TString body, S n)
        | None => None
        end
      else if String.prefix "null" s then Some (TValue PNone, 4)
      else if String.prefix "true" s then Some (TValue (PBool true), 4)
      else if String.prefix "false" s then Some (TValue (PBool false), 5)
      else if String.prefix "NaN" s then Some (TValue (PFloat "NaN"), 3)
      else if String.prefix "Infinity" s then Some (TValue (PFloat "Infinity"), 8)
      else if String.prefix "-Infinity" s then Some (TValue (PFloat "-Infinity"), 9)
      else match scan_number s with
           | Some (v, n) => Some (TValue v, n)
           | None => None
           end
  end.

(** The tokens of a text. [skip] counts the characters of the current token
    that are still to be passed over. *)
Fixpoint lex (s : string) (skip : nat) : option (list token) :=
  match s with
  | EmptyString => Some []
  | String c s' =>
      match skip with
      | S k => lex s' k
      | O =>
          if is_ws c then lex s' 0
          else match scan_token s with
               | Some (t, n) => option_map (cons t) (lex s' (n - 1))
               | None => None
               end
      end
  end.

(** Containers under construction, innermost first; their contents are
    kept in reverse for lists, in order for dicts. *)
Inductive frame : Type :=
| FList (acc : list pyval)
| FDict (acc : pydict) (key : string).

Inductive expect : Type :=
| EValue                 (* a value *)
| EValueOrClose          (* just after an opening bracket *)
| EKeyOrClose            (* just after an opening brace *)
| EKey                   (* after a comma inside an object *)
| EColon (key : string)  (* after a key *)
| EAfter (v : pyval).    (* after a complete value *)

Definition pstate : Type := (expect * list frame)%type.

Definition open_value (t : token) (stack : list frame) : option pstate :=
  match t with
  | TLBracket => Some (EValueOrClose, FList [] :: stack)
  | TLBrace => Some (EKeyOrClose, FDict [] EmptyString :: stack)
  | TString s => Some (EAfter (PStr s), stack)
  | TValue v => Some (EAfter v, stack)
  | _ => None
  end.

Definition step (st : pstate) (t : token) : option pstate :=
  let (e, stack) := st in
  match e with
  | EValue => open_value t stack
  | EValueOrClose =>
      match t, stack with
      | TRBracket, FList _ :: rest => Some (EAfter (PList []), rest)
      | _, _ => open_value t stack
      end
  | EKeyOrClose =>
      match t, stack with
      | TRBrace, FDict _ _ :: rest => Some (EAfter (PDict []), rest)
      | TString k, FDict acc _ :: rest => Some (EColon k, FDict acc k :: rest)
      | _, _ => None
      end
  | EKey =>
      match t, stack with
      | TString k, FDict acc _ :: rest => Some (EColon k, FDict acc k :: rest)
      | _, _ => None
      end
  | EColon _ =>
      match t with
      | TColon => Some (EValue, stack)
      | _ => None
      end
  | EAfter v =>
      match t, stack with
      | TComma, FList acc :: rest => Some (EValue, FList (v :: acc) :: rest)
      | TRBracket, FList acc :: rest => Some (EAfter (PList (rev (v :: acc))), rest)
      | TComma, FDict acc k :: rest => Some (EKey, FDict (Dict.set acc k v) k :: rest)
      | TRBrace, FDict acc k :: rest => Some (EAfter (PDict (Dict.set acc k v)), rest)
      | _, _ => None
      end
  end.

Fixpoint run (st : pstate) (ts : list token) : option pstate :=
  match ts with
  | [] => Some st
  | t :: ts' =>
      match step st t with
      | Some st' => run st' ts'
      | None => None
      end
  end.

Definition parse (ts : list token) : option pyval :=
  match run (EValue, []) ts with
  | Some (EAfter v, []) => Some v
  | _ => None
  end.

(** [json.loads(s)] *)
Definition loads (s : string) : outcome pyval :=
  match lex s 0 with
  | Some ts =>
      match parse ts with
      | Some v => Ok v
      | None => Raise JSONDecodeError
      end
  | None => Raise JSONDecodeError
  end.

End Json.

(* ================================================================== *)
(** ** [re.findall] for the patterns of the parser *)
(* ================================================================== *)

(** A backtracking matcher for the fragment of regular expressions that
    the parser uses: literal characters, the classes [\s] and [[\s\S]],
    greedy and lazy repetition of a class, one capture group. *)
Module Re.

Inductive cls : Type :=
| CAny                 (* [\s\S] *)
| CSpace               (* \s *)
| CChar (c : ascii).   (* a literal character *)

Definition in_cls (k : cls) (c : ascii) : bool :=
  match k with
  | CAny => true
  | CSpace => Str.isspace c
  | CChar d => Ascii.eqb c d
  end.

Inductive regex : Type :=
| REps                     (* the empty pattern *)
| ROne (k : cls)
| RStar (k : cls)          (* k*  *)
| RStarLazy (k : cls)      (* k*? *)
| RGroup (r : regex)       (* ( r ) *)
| RSeq (r1 r2 : regex).

(** The literal text [s]. *)
Fixpoint str (s : string) : regex :=
  match s with
  | EmptyString => REps
  | String c s' => RSeq (ROne (CChar c)) (str s')
  end.

(** The patterns in sequence. *)
Fixpoint seq (rs : list regex) : regex :=
  match rs with
  | [] => REps
  | r :: rs' => RSeq r (seq rs')
  end.

(** A match in progress: the text captured by the group, if closed, and the
    text still to be read. *)
Definition result : Type := (option string * string)%type.

Fixpoint star_greedy (k : cls) (s : string) (cont : string -> option result)
  : option result :=
  match s with
  | EmptyString => cont s
  | String c s' =>
      if in_cls k c
      then match star_greedy k s' cont with
           | Some r => Some r
           | None => cont s
           end
      else cont s
  end.

Fixpoint star_lazy (k : cls) (s : string) (cont : string -> option result)
  : option result :=
  match cont s with
  | Some r => Some r
  | None =>
      match s with
      | EmptyString => None
      | String c s' => if in_cls k c then star_lazy k s' cont else None
      end
  end.

(** [exec r s g cont]: match [r] at the head of [s], then continue with
    [cont] on what is left; alternatives are tried in the order of a
    backtracking engine. *)
Fixpoint exec (r : regex) (s : string) (g : option string)
         (cont : string -> option string -> option result) : option result :=
  match r with
  | REps => cont s g
  | ROne k =>
      match s with
      | String c s' => if in_cls k c then cont s' g else None
      | EmptyString => None
      end
  | RStar k => star_greedy k s (fun s' => cont s' g)
  | RStarLazy k => star_lazy k s (fun s' => cont s' g)
  | RGroup r1 =>
      exec r1 s g
           (fun s' _ => cont s' (Some (Str.take (String.length s - String.length s') s)))
  | RSeq r1 r2 => exec r1 s g (fun s' g' => exec r2 s' g' cont)
  end.

(** A match of [r] starting exactly at the head of [s]: what [findall]
    reports for it (the group if there is one, else the whole match) and
    the length of the match. *)
Definition match_at (r : regex) (s : string) : option (string * nat) :=
  match exec r s None (fun s' g => Some (g, s')) with
  | Some (g, rest) =>
      let n := String.length s - String.length rest in
      Some (match g with Some x => x | None => Str.take n s end, n)
  | None => None
  end.

(** Scan from left to right; after a match the scan resumes at its end.
    [skip] counts the characters of the last match still to be passed.
    (None of the patterns below matches the empty string.) *)
Fixpoint findall_from (r : regex) (s : string) (skip : nat) : list string :=
  match s with
  | EmptyString => []
  | String _ s' =>
      match skip with
      | S k => findall_from r s' k
      | O =>
          match match_at r s with
          | Some (x, n) => x :: findall_from r s' (n - 1)
          | None => findall_from r s' 0
          end
      end
  end.

(** [re.findall(pattern, text)] *)
Definition findall (r : regex) (text : string) : list string :=
  findall_from r text 0.

End Re.

(* ================================================================== *)
(** ** The service: state, effects *)
(* ================================================================== *)

(** The attributes set by [AIService.__init__]. The attribute [model] (the
    client of the generative model) is the oracle [generate_content] below. *)
Record AIService : Type := {
  api_key : string;
  model_name : string;
  max_retries : nat;
  retry_delay : nat;
  debug : bool
}.

(** [AIService(api_key, model)] *)
Definition AIService_init (key : string) (model : string) : AIService :=
  {| api_key := key; model_name := model;
     max_retries := 3; retry_delay := 2; debug := true |}.

Definition default_model : string := "gemini-2.0-flash".

(** [last_error] of [generate_quiz] *)
Inductive last_error : Type :=
| CouldNotParse            (* "Could not parse valid questions from AI response" *)
| ErrorText (e : exn).     (* str(e) *)

(** The diagnostic lines of [_log], one constructor per call site, with the
    values interpolated in the message. *)
Inductive log_msg : Type :=
| LMakingRequest (model : string)
| LReceived (chars : nat) (head : string)
| LNoValidResponse
| LError (e : exn)
| LAttemptExtract
| LStrategy1Array
| LStrategy1Object
| LStrategy2Array (i : nat)
| LStrategy2Object (i : nat)
| LPatternFailed (i : nat) (e : exn)
| LAllStrategiesFailed
| LAttempt (k : nat) (of_n : nat) (topic : string)
| LValidQuestion (head : string)
| LSuccess (n : nat)
| LOnlyValid (n : nat)
| LErrorOnAttempt (k : nat) (e : exn)
| LWaiting (secs : nat)
| LAllAttemptsFailed (err : option last_error)
| LRejectedShort (q_text : string)
| LRejectedPattern (pattern : string)
| LRejectedOptions.

(** What the service has done to its environment so far: the lines
    printed, the number of requests sent to the model, the seconds slept. *)
Record world : Type := {
  stdout : list log_msg;
  requests : nat;
  slept : nat
}.

Definition M (A : Type) : Type := world -> outcome A * world.

Definition ret {A} (a : A) : M A := fun w => (Ok a, w).

Definition bind {A B} (m : M A) (f : A -> M B) : M B :=
  fun w =>
    match m w with
    | (Ok a, w') => f a w'
    | (Raise e, w') => (Raise e, w')
    end.

Definition raise {A} (e : exn) : M A := fun w => (Raise e, w).

(** A pure computation that may raise. *)
Definition lift {A} (o : outcome A) : M A := fun w => (o, w).

(** [try: body  except <classes>: handler]: effects made by [body] before
    it raised are kept. *)
Definition try_except {A} (body : M A) (catches : exn -> bool) (handler : exn -> M A)
  : M A :=
  fun w =>
    match body w with
    | (Ok a, w') => (Ok a, w')
    | (Raise e, w') => if catches e then handler e w' else (Raise e, w')
    end.

Declare Scope monad_scope.
Delimit Scope monad_scope with monad.
Notation "x <- c ;; k" := (bind c (fun x => k))
  (at level 61, c at next level, right associativity) : monad_scope.
Notation "c ;; k" := (bind c (fun _ => k))
  (at level 61, right associativity) : monad_scope.
Open Scope monad_scope.

(** What one call of the model's [generate_content] does: it answers with
    a text (possibly empty) or raises. *)
Inductive reply : Type :=
| Text (s : string)
| Failure (err : string).

(* ================================================================== *)
(** ** Fallback generator *)
(* ================================================================== *)

(** A dict literal [{"question": q, "options": [...], "correct_index": i}] *)
Definition question_entry (q : string) (options : list string) (correct : Z) : pydict :=
  [("question", PStr q); ("options", PList (map PStr options));
   ("correct_index", PInt correct)].

(** [fallback_questions] of [_generate_fallback_question] *)
Definition fallback_questions : list (string * list pydict) := [
  ("Wellness", [
    question_entry "Which of these is recommended for better sleep?"
      ["Caffeine before bed"; "Regular sleep schedule"; "Screen time"; "Heavy meals"] 1;
    question_entry "What is mindfulness?"
      ["Sleeping more"; "Present moment awareness"; "Multitasking"; "Speed reading"] 1;
    question_entry "How much water should adults drink daily?"
      ["1 cup"; "8 cups"; "20 cups"; "No water needed"] 1;
    question_entry "Which activity reduces stress?"
      ["Meditation"; "Overworking"; "Skipping meals"; "Isolation"] 0;
    question_entry "What's a benefit of regular exercise?"
      ["Fatigue"; "Better mood"; "Weight gain"; "Insomnia"] 1]);
  ("Tech Trends", [
    question_entry "What does AI stand for?"
      ["Artificial Intelligence"; "Automated Internet"; "Advanced Integration"; "Auto Interface"] 0;
    question_entry "What is cloud computing?"
      ["Weather prediction"; "Remote data storage and processing"; "Airplane technology"; "Photography"] 1;
    question_entry "What is blockchain?"
      ["A game"; "Distributed ledger technology"; "Social media"; "Email service"] 1;
    question_entry "What does IoT mean?"
      ["Internet of Things"; "Input of Text"; "Internal Operations"; "Image Optimization"] 0;
    question_entry "What is machine learning?"
      ["Robot building"; "AI learning from data"; "Computer repair"; "Typing practice"] 1]);
  ("Space Exploration", [
    question_entry "Which planet is known as the Red Planet?"
      ["Venus"; "Mars"; "Jupiter"; "Saturn"] 1;
    question_entry "What is the closest star to Earth?"
      ["Polaris"; "Sirius"; "The Sun"; "Alpha Centauri"] 2;
    question_entry "Who was the first human in space?"
      ["Neil Armstrong"; "Yuri Gagarin"; "Buzz Aldrin"; "John Glenn"] 1;
    question_entry "What is a light-year?"
      ["Time unit"; "Distance unit"; "Speed unit"; "Weight unit"] 1;
    question_entry "Which planet has the most moons?"
      ["Earth"; "Mars"; "Saturn"; "Mercury"] 2]);
  ("World History", [
    question_entry "In which year did World War II end?"
      ["1943"; "1945"; "1947"; "1950"] 1;
    question_entry "Who was the first President of the United States?"
      ["Abraham Lincoln"; "Thomas Jefferson"; "George Washington"; "John Adams"] 2;
    question_entry "Which ancient wonder was located in Egypt?"
      ["Colossus of Rhodes"; "Great Pyramid of Giza"; "Hanging Gardens"; "Temple of Artemis"] 1;
    question_entry "The Renaissance began in which country?"
      ["France"; "England"; "Italy"; "Spain"] 2;
    question_entry "Who discovered America in 1492?"
      ["Vasco da Gama"; "Ferdinand Magellan"; "Christopher Columbus"; "Amerigo Vespucci"] 2]);
  ("Science & Nature", [
    question_entry "What is the chemical symbol for water?"
      ["O2"; "H2O"; "CO2"; "NaCl"] 1;
    question_entry "What is the largest organ in the human body?"
      ["Heart"; "Liver"; "Skin"; "Brain"] 2;
    question_entry "What gas do plants absorb from the air?"
      ["Oxygen"; "Nitrogen"; "Carbon Dioxide"; "Hydrogen"] 2;
    question_entry "What is the hardest natural substance?"
      ["Gold"; "Iron"; "Diamond"; "Platinum"] 2;
    question_entry "How many bones are in the adult human body?"
      ["106"; "206"; "306"; "406"] 1]);
  ("Pop Culture", [
    question_entry "Which band performed 'Bohemian Rhapsody'?"
      ["The Beatles"; "Queen"; "Led Zeppelin"; "Pink Floyd"] 1;
    question_entry "What year was the first iPhone released?"
      ["2005"; "2007"; "2009"; "2010"] 1;
    question_entry "Who directed the movie 'Titanic'?"
      ["Steven Spielberg"; "James Cameron"; "Christopher Nolan"; "Martin Scorsese"] 1;
    question_entry "Which streaming platform produces 'Stranger Things'?"
      ["Amazon Prime"; "Hulu"; "Netflix"; "Disney+"] 2;
    question_entry "What social media app is known for short videos?"
      ["Facebook"; "Twitter"; "TikTok"; "LinkedIn"] 2])
].

(** [default_questions], the templates filled with the topic *)
Definition default_questions (topic : string) : list pydict := [
  question_entry ("What is a key aspect of " ++ topic ++ "?")
    ["Knowledge"; "Ignorance"; "Confusion"; "None"] 0;
  question_entry ("Why is " ++ topic ++ " important?")
    ["Personal growth"; "No reason"; "Waste of time"; "Harmful"] 0;
  question_entry ("How can one learn about " ++ topic ++ "?")
    ["Reading and practice"; "Sleeping"; "Ignoring it"; "Running away"] 0;
  question_entry ("What skill helps in " ++ topic ++ "?")
    ["Critical thinking"; "Laziness"; "Procrastination"; "Denial"] 0;
  question_entry ("Who can benefit from " ++ topic ++ "?")
    ["Everyone"; "No one"; "Only experts"; "Only children"] 0
].

(** [fallback_questions.get(topic, default)]: the keys are compared as
    strings, character by character. *)
Fixpoint bank_get (bank : list (string * list pydict)) (topic : string)
         (default : list pydict) : list pydict :=
  match bank with
  | [] => default
  | (name, qs) :: bank' => if String.eqb topic name then qs else bank_get bank' topic default
  end.

(** [{"id": question_id, **entry}] *)
Definition with_id (question_id : Z) (entry : pydict) : pydict :=
  fold_left (fun d kv => Dict.set d (fst kv) (snd kv)) entry [("id", PInt question_id)].

Definition _generate_fallback_question (topic : string) (question_id : Z) : pydict :=
  let topic_questions := bank_get fallback_questions topic (default_questions topic) in
  let idx := ((question_id - 1) mod Z.of_nat (List.length topic_questions))%Z in
  with_id question_id (nth (Z.to_nat idx) topic_questions []).

(** [[self._generate_fallback_question(topic, i) for i in range(1, 6)]] *)
Definition _generate_fallback_questions (topic : string) : list pydict :=
  map (_generate_fallback_question topic) [1; 2; 3; 4; 5]%Z.


(* ================================================================== *)
(** ** Prompts *)
(* ================================================================== *)

Definition dq : string := String Py.dquote EmptyString.

Definition unlines (lines : list string) : string := Str.join Str.newline lines.

(** The prompt of [generate_quiz] *)
Definition quiz_prompt (topic : string) : string := unlines [
  "You are a quiz generator. Create 5 multiple-choice questions about " ++ topic ++ ".";
  EmptyString;
  "IMPORTANT RULES:";
  "1. Check all spelling and grammar carefully";
  "2. End questions with " ++ dq ++ "?" ++ dq ++ " not " ++ dq ++ "." ++ dq;
  "3. Return ONLY valid JSON - no extra text before or after";
  "4. Each question needs exactly 4 options";
  "5. correctIndex must be 0, 1, 2, or 3";
  EmptyString;
  "Return this exact JSON format:";
  "[";
  "  {";
  "    " ++ dq ++ "question" ++ dq ++ ": " ++ dq ++ "Your question here?" ++ dq ++ ",";
  "    " ++ dq ++ "options" ++ dq ++ ": [" ++ dq ++ "Option A" ++ dq ++ ", " ++ dq ++ "Option B" ++ dq ++ ", " ++ dq ++ "Option C" ++ dq ++ ", " ++ dq ++ "Option D" ++ dq ++ "],";
  "    " ++ dq ++ "correctIndex" ++ dq ++ ": 0";
  "  }";
  "]";
  EmptyString;
  "Generate 5 interesting and educational questions about " ++ topic ++ ":"
].

(** The prompt of [generate_feedback] *)
Definition feedback_prompt (score total : Z) (topic : string) : string := unlines [
  "Score: " ++ Str.of_Z score ++ "/" ++ Str.of_Z total ++ " on " ++ topic ++ " quiz.";
  "Write short encouraging sentences (max 50 words). No emojis."
].

(* ================================================================== *)
(** ** The methods of [AIService] *)
(* ================================================================== *)

Definition json_patterns : list Re.regex := [
  (* ```json\s*([\s\S]*?)\s*``` *)
  Re.seq [Re.str "```json"; Re.RStar Re.CSpace; Re.RGroup (Re.RStarLazy Re.CAny);
          Re.RStar Re.CSpace; Re.str "```"];
  (* ```\s*([\s\S]*?)\s*``` *)
  Re.seq [Re.str "```"; Re.RStar Re.CSpace; Re.RGroup (Re.RStarLazy Re.CAny);
          Re.RStar Re.CSpace; Re.str "```"];
  (* \[[\s\S]*\] *)
  Re.seq [Re.ROne (Re.CChar "["); Re.RStar Re.CAny; Re.ROne (Re.CChar "]")];
  (* \{[\s\S]*\} *)
  Re.seq [Re.ROne (Re.CChar "{"); Re.RStar Re.CAny; Re.ROne (Re.CChar "}")]
].

Definition low_quality_patterns : list string := [
  "abbreviation for"; "acronym for"; "what does the word";
  "spell "; "how do you spell"; "define the word";
  "synonym for"; "antonym for";
  "q1"; "q2"; "q3"; "q4"; "q5"; "question text"; "your question"
].

(** [normalize_questions], the loop over the enumerated elements; [i] is
    the index of the head of [items]. *)
Fixpoint normalize_from (i : Z) (items : list pyval) : list pydict :=
  match items with
  | [] => []
  | q :: rest =>
      match q with
      | PDict d =>
          [("id", Dict.get_default d "id" (PInt (i + 1)));
           ("question", Dict.get_default d "question" (PStr EmptyString));
           ("options", Dict.get_default d "options" (PList []));
           ("correct_index",
            Dict.get_default d "correct_index"
              (Dict.get_default d "correctIndex" (PInt 0)))]
          :: normalize_from (i + 1) rest
      | _ => normalize_from (i + 1) rest
      end
  end.

Section Service.

Context {FP : PyFloat}.

(** [self] *)
Variable self : AIService.

(** [self.model.generate_content]: the reply to the [n]-th request sent
    since the start, given its prompt. *)
Variable generate_content : nat -> string -> reply.

Definition _log (message : log_msg) : M unit :=
  fun w =>
    if debug self
    then (Ok tt, {| stdout := stdout w ++ [message];
                    requests := requests w; slept := slept w |})
    else (Ok tt, w).

(** [time.sleep(secs)] *)
Definition sleep (secs : nat) : M unit :=
  fun w => (Ok tt, {| stdout := stdout w; requests := requests w;
                      slept := slept w + secs |}).

(** The call [self.model.generate_content(prompt, ...)] and the read of
    [response.text]. *)
Definition call_model (prompt : string) : M string :=
  fun w =>
    let w' := {| stdout := stdout w; requests := S (requests w); slept := slept w |} in
    match generate_content (requests w) prompt with
    | Text t => (Ok t, w')
    | Failure err => (Raise (ApiError err), w')
    end.

Definition _make_request (prompt : string) : M (option string) :=
  try_except
    (_log (LMakingRequest (model_name self)) ;;
     text <- call_model prompt ;;
     if negb (Str.is_empty text)
     then _log (LReceived (String.length text) (Str.take 200 text)) ;;
          ret (Some text)
     else _log LNoValidResponse ;;
          ret None)
    is_Exception
    (fun e => _log (LError e) ;; raise (GeminiError e)).

(** [normalize_questions(questions_list)] *)
Definition normalize_questions (questions_list : pyval) : outcome (list pydict) :=
  match Py.iter questions_list with
  | Ok items => Ok (normalize_from 0 items)
  | Raise e => Raise e
  end.

(** The two acceptance tests shared by the strategies. A result [Some qs]
    stands for [return {"questions": qs}], [None] for falling through. *)
Definition accept_array (on_success : log_msg) (parsed : pyval)
  : M (option (list pydict)) :=
  match parsed with
  | PList (_ :: _) =>
      _log on_success ;;
      qs <- lift (normalize_questions parsed) ;;
      ret (Some qs)
  | _ => ret None
  end.

Definition accept_object (on_success : log_msg) (parsed : pyval)
  : M (option (list pydict)) :=
  match parsed with
  | PDict d =>
      match Dict.get d "questions" with
      | Some v =>
          _log on_success ;;
          qs <- lift (normalize_questions v) ;;
          ret (Some qs)
      | None => ret None
      end
  | _ => ret None
  end.

(** Strategy 1: the whole text *)
Definition strategy1 (text : string) : M (option (list pydict)) :=
  try_except
    (parsed <- lift (Json.loads (Str.strip text)) ;;
     r <- accept_array LStrategy1Array parsed ;;
     match r with
     | Some qs => ret (Some qs)
     | None => accept_object LStrategy1Object parsed
     end)
    is_JSONDecodeError
    (fun _ => ret None).

(** The body of the loop over the matches of pattern [i] *)
Definition try_match (i : nat) (mtch : string) : M (option (list pydict)) :=
  try_except
    (let clean_match := Str.strip mtch in
     (* for array format *)
     r <- (if Str.startswith clean_match "["
           then
             let last_bracket := Str.rfind "]" clean_match in
             let clean_match :=
               if negb (last_bracket =? -1)%Z
               then Str.slice_to clean_match (last_bracket + 1)
               else clean_match in
             parsed <- lift (Json.loads clean_match) ;;
             found <- accept_array (LStrategy2Array i) parsed ;;
             ret (found, clean_match)
           else ret (None, clean_match)) ;;
     match r with
     | (Some qs, _) => ret (Some qs)
     | (None, clean_match) =>
         (* for object format *)
         if negb (Str.startswith clean_match "[")
         then
           let clean_match :=
             if negb (Str.startswith clean_match "{")
             then
               let json_start := Str.find "{" clean_match in
               if negb (json_start =? -1)%Z
               then Str.slice_from clean_match json_start
               else clean_match
             else clean_match in
           let last_brace := Str.rfind "}" clean_match in
           let clean_match :=
             if negb (last_brace =? -1)%Z
             then Str.slice_to clean_match (last_brace + 1)
             else clean_match in
           parsed <- lift (Json.loads clean_match) ;;
           accept_object (LStrategy2Object i) parsed
         else ret None
     end)
    is_JSONDecodeError
    (fun e => _log (LPatternFailed i e) ;; ret None).

Fixpoint try_matches (i : nat) (matches : list string) : M (option (list pydict)) :=
  match matches with
  | [] => ret None
  | mtch :: rest =>
      r <- try_match i mtch ;;
      match r with
      | Some qs => ret (Some qs)
      | None => try_matches i rest
      end
  end.

Fixpoint try_patterns (i : nat) (patterns : list Re.regex) (text : string)
  : M (option (list pydict)) :=
  match patterns with
  | [] => ret None
  | pattern :: rest =>
      r <- try_matches i (Re.findall pattern text) ;;
      match r with
      | Some qs => ret (Some qs)
      | None => try_patterns (S i) rest text
      end
  end.

(** [_extract_json(text)]: [Some qs] stands for the dict
    [{"questions": qs}], [None] for [None]. *)
Definition _extract_json (text : string) : M (option (list pydict)) :=
  _log LAttemptExtract ;;
  r <- strategy1 text ;;
  match r with
  | Some qs => ret (Some qs)
  | None =>
      r <- try_patterns 0 json_patterns text ;;
      match r with
      | Some qs => ret (Some qs)
      | None => _log LAllStrategiesFailed ;; ret None
      end
  end.

(** [question["question"].strip()] *)
Definition strip_method (v : pyval) : outcome string :=
  match v with
  | PStr s => Ok (Str.strip s)
  | _ => Raise AttributeError
  end.

(** The first pattern of the denylist found in the text, if any *)
Definition find_low_quality (q_lower : string) : option string :=
  List.find (fun pattern => Str.contains pattern q_lower) low_quality_patterns.

(** [len(str(opt).strip()) <= 2] *)
Definition option_too_short (opt : pyval) : bool :=
  (String.length (Str.strip (Py.str opt)) <=? 2)%nat.

Definition _validate_question (question : pydict) : M bool :=
  match Dict.get question "question" with
  | None => ret false
  | Some qv =>
      if negb (Py.truthy qv) then ret false
      else
        q_text <- lift (strip_method qv) ;;
        if (String.length q_text <? 15)%nat
        then _log (LRejectedShort q_text) ;; ret false
        else
          let q_lower := Str.lower q_text in
          match find_low_quality q_lower with
          | Some pattern => _log (LRejectedPattern pattern) ;; ret false
          | None =>
              match Dict.get question "options" with
              | None => ret false
              | Some (PList options) =>
                  if negb (List.length options =? 4)%nat then ret false
                  else if forallb option_too_short options
                  then _log LRejectedOptions ;; ret false
                  else
                    let correct_idx :=
                      Dict.get_default question "correct_index"
                        (Dict.get_default question "correctIndex" PNone) in
                    match correct_idx with
                    | PNone => ret false
                    | _ =>
                        r <- try_except
                               (idx <- lift (Py.int correct_idx) ;;
                                if ((idx <? 0) || (3 <? idx))%Z
                                then ret (Some false)
                                else ret None)
                               is_ValueError_or_TypeError
                               (fun _ => ret (Some false)) ;;
                        match r with
                        | Some verdict => ret verdict
                        | None => ret true
                        end
                    end
              | Some _ => ret false
              end
          end
  end.

(** [q.get('question', '')[:50]] of the success log *)
Definition question_head (q : pydict) : string :=
  match Dict.get_default q "question" (PStr EmptyString) with
  | PStr s => Str.take 50 s
  | _ => EmptyString
  end.

(** The loop [for q in questions[:5]] of [generate_quiz] *)
Fixpoint collect_valid (questions : list pydict) (valid_questions : list pydict)
  : M (list pydict) :=
  match questions with
  | [] => ret valid_questions
  | q :: rest =>
      ok <- _validate_question q ;;
      if ok
      then _log (LValidQuestion (question_head q)) ;;
           collect_valid rest (valid_questions ++ [q])%list
      else collect_valid rest valid_questions
  end.

(** The loop [while len(valid_questions) < 5]; [fuel] bounds the number of
    iterations. *)
Fixpoint pad_with_fallback (fuel : nat) (topic : string) (valid_questions : list pydict)
  : list pydict :=
  if (List.length valid_questions <? 5)%nat
  then match fuel with
       | S fuel' =>
           pad_with_fallback fuel' topic
             (valid_questions ++
              [_generate_fallback_question topic
                 (Z.of_nat (List.length valid_questions) + 1)])%list
       | O => valid_questions
       end
  else valid_questions.

(** How one iteration of the retry loop ends: by [return] from the
    function, or by going on with a new value of [last_error]. *)
Inductive iteration : Type :=
| Return (quiz : list pydict)
| Continue (err : option last_error).

(** The [try] block of one attempt. *)
Definition attempt_body (topic prompt : string) : M iteration :=
  response <- _make_request prompt ;;
  r <- match response with
       | Some text =>
           parsed <- _extract_json text ;;
           match parsed with
           | Some questions =>
               valid_questions <- collect_valid (firstn 5 questions) [] ;;
               if (3 <=? List.length valid_questions)%nat
               then
                 let valid_questions := pad_with_fallback 5 topic valid_questions in
                 _log (LSuccess (List.length valid_questions)) ;;
                 ret (Some (firstn 5 valid_questions))
               else
                 _log (LOnlyValid (List.length valid_questions)) ;;
                 ret None
           | None => ret None
           end
       | None => ret None
       end ;;
  match r with
  | Some quiz => ret (Return quiz)
  | None => ret (Continue (Some CouldNotParse))
  end.

(** The loop [for attempt in range(self.max_retries)] from iteration
    [attempt] on, with [todo] iterations left, and what follows the loop. *)
Fixpoint attempts (todo : nat) (attempt : nat) (topic prompt : string)
         (err : option last_error) : M (list pydict) :=
  match todo with
  | O =>
      _log (LAllAttemptsFailed err) ;;
      ret (_generate_fallback_questions topic)
  | S todo' =>
      _log (LAttempt (attempt + 1) (max_retries self) topic) ;;
      it <- try_except
              (attempt_body topic prompt)
              is_Exception
              (fun e =>
                 _log (LErrorOnAttempt (attempt + 1) e) ;;
                 ret (Continue (Some (ErrorText e)))) ;;
      match it with
      | Return quiz => ret quiz
      | Continue err' =>
          (if (attempt <? max_retries self - 1)%nat
           then _log (LWaiting (retry_delay self)) ;; sleep (retry_delay self)
           else ret tt) ;;
          attempts todo' (S attempt) topic prompt err'
      end
  end.

Definition generate_quiz (topic : string) : M (list pydict) :=
  attempts (max_retries self) 0 topic (quiz_prompt topic) None.

(** [(score / total) * 100 if total > 0 else 0]; the quotient is taken
    exactly. *)
Definition percentage (score total : Z) : Q :=
  if (0 <? total)%Z then (Qmake score (Z.to_pos total) * 100)%Q else 0%Q.

(** The four templated sentences *)
Definition fallback_feedback (percentage : Q) (topic : string) : string :=
  if Qle_bool 80 percentage then "Excellent! You really know your " ++ topic ++ "."
  else if Qle_bool 60 percentage then "Good job! Solid understanding of " ++ topic ++ "."
  else if Qle_bool 40 percentage then "Nice try! Keep learning about " ++ topic ++ "."
  else "Keep going! " ++ topic ++ " takes practice.".

(** The text kept from a response of the model *)
Definition shorten_feedback (response : string) : string :=
  let feedback := Str.strip_chars (String Py.dquote (String Py.squote EmptyString))
                                  (Str.strip response) in
  let words := Str.split feedback in
  let words := if (50 <? List.length words)%nat then firstn 50 words else words in
  Str.join " " words.

Definition generate_feedback (score total : Z) (topic : string)
           (questions : list pydict) (answers : list Z) : M string :=
  let percentage := percentage score total in
  let prompt := feedback_prompt score total topic in
  r <- try_except
         (response <- _make_request prompt ;;
          match response with
          | Some text => ret (Some (shorten_feedback text))
          | None => ret None
          end)
         is_Exception
         (fun _ => ret None) ;;
  match r with
  | Some feedback => ret feedback
  | None => ret (fallback_feedback percentage topic)
  end.

End Service.

(* ================================================================== *)
(** ** A reading of floats for running examples *)
(* ================================================================== *)

(** The reading of a float token as the decimal number it writes, without
    rounding to a double: it agrees with the interpreter on the tokens whose
    value a double holds exactly. [repr] gives the token back as written.
    The examples below are run with it; the theorems hold for every
    instance of [PyFloat]. *)
Module DecimalFloat.

Fixpoint split_at (p : ascii -> bool) (s : string) : string * option string :=
  match s with
  | EmptyString => (EmptyString, None)
  | String c s' =>
      if p c then (EmptyString, Some s')
      else let (a, b) := split_at p s' in (String c a, b)
  end.

Definition signed (s : string) : bool * string :=
  match s with
  | String "-" t => (true, t)
  | String "+" t => (false, t)
  | _ => (false, s)
  end.

(** Sign, mantissa and decimal exponent of a finite token. *)
Definition parts (token : string) : bool * Z * Z :=
  let (neg, body) := signed token in
  let (mant, exp) := split_at (fun c => Ascii.eqb c "e" || Ascii.eqb c "E") body in
  let (ip, fp) := split_at (fun c => Ascii.eqb c ".") mant in
  let fd := match fp with Some d => d | None => EmptyString end in
  let e := match exp with
           | Some x => let (eneg, ed) := signed x in
                       if eneg then (- Json.digits_val ed 0)%Z else Json.digits_val ed 0
           | None => 0%Z
           end in
  (neg, Json.digits_val (ip ++ fd) 0, (e - Z.of_nat (String.length fd))%Z).

Definition is_special (token : string) : bool :=
  String.eqb token "NaN" || String.eqb token "Infinity" || String.eqb token "-Infinity".

Definition to_bool (token : string) : bool :=
  if is_special token then true
  else match parts token with (_, m, _) => negb (m =? 0)%Z end.

Definition to_int (token : string) : outcome Z :=
  if String.eqb token "NaN" then Raise ValueError
  else if is_special token then Raise OverflowError
  else match parts token with
       | (neg, m, e) =>
           let a := if (0 <=? e)%Z then (m * 10 ^ e)%Z else (m / 10 ^ (- e))%Z in
           Ok (if neg then - a else a)%Z
       end.

End DecimalFloat.

Definition decimal_floats : PyFloat := {|
  float_bool := DecimalFloat.to_bool;
  float_int := DecimalFloat.to_int;
  float_repr := fun token => token
|}.

(* ================================================================== *)
(** * Notions used to state the properties *)
(* ================================================================== *)

(** ** Outcomes of computations *)

(** [m1] and [m2] end alike from any two states of the world: neither
    reads the lines printed so far, the request counter or the clock. *)
Definition same_outcome {A} (m1 m2 : M A) : Prop :=
  forall w1 w2, fst (m1 w1) = fst (m2 w2).

(** [m] leaves the request counter and the clock alone. *)
Definition quiet {A} (m : M A) : Prop :=
  forall w, requests (snd (m w)) = requests w /\ slept (snd (m w)) = slept w.

(** [Q] holds of the outcome of [m] from every state. *)
Definition always {A} (m : M A) (Q : outcome A -> Prop) : Prop :=
  forall w, Q (fst (m w)).

Definition empty_world : world := {| stdout := []; requests := 0; slept := 0 |}.

(** A service that prints nothing. *)
Definition silent : AIService :=
  {| api_key := EmptyString; model_name := default_model;
     max_retries := 3; retry_delay := 2; debug := false |}.

(** ** The parser, the validator and the retry loop as functions *)

(** What [_extract_json] returns or raises on a text. *)
Definition parse_outcome (text : string) : outcome (option (list pydict)) :=
  fst (_extract_json silent text empty_world).

(** What [_validate_question] returns or raises on a candidate. *)
Definition verdict {FP : PyFloat} (q : pydict) : outcome bool :=
  fst (_validate_question silent q empty_world).

(** The candidates that pass, while the validator raises on none. *)
Fixpoint passing {FP : PyFloat} (qs : list pydict) : outcome (list pydict) :=
  match qs with
  | [] => Ok []
  | q :: rest =>
      match verdict q with
      | Raise e => Raise e
      | Ok b =>
          match passing rest with
          | Raise e => Raise e
          | Ok l => Ok (if b then q :: l else l)
          end
      end
  end.

(** What the [try] block of one attempt comes to, given the reply of the
    model to its request. *)
Definition attempt_outcome {FP : PyFloat} (topic : string) (r : reply) : outcome iteration :=
  match r with
  | Failure err => Raise (GeminiError (ApiError err))
  | Text text =>
      if Str.is_empty text then Ok (Continue (Some CouldNotParse))
      else
        match parse_outcome text with
        | Raise e => Raise e
        | Ok None => Ok (Continue (Some CouldNotParse))
        | Ok (Some questions) =>
            match passing (firstn 5 questions) with
            | Raise e => Raise e
            | Ok valid =>
                if (3 <=? List.length valid)%nat
                then Ok (Return (firstn 5 (pad_with_fallback 5 topic valid)))
                else Ok (Continue (Some CouldNotParse))
            end
        end
  end.

(** The quiz returned by the retry loop with [todo] attempts left, when the
    next request is the [n]-th, and the number of requests it sends. *)
Fixpoint quiz_from {FP : PyFloat} (generate_content : nat -> string -> reply)
         (topic prompt : string) (todo : nat) (n : nat) : list pydict * nat :=
  match todo with
  | O => (_generate_fallback_questions topic, 0)
  | S todo' =>
      match attempt_outcome topic (generate_content n prompt) with
      | Ok (Return quiz) => (quiz, 1)
      | _ =>
          let (quiz, k) := quiz_from generate_content topic prompt todo' (S n) in
          (quiz, S k)
      end
  end.

(** An attempt that does not return leaves the loop going. *)
Definition fails {FP : PyFloat} (topic : string) (r : reply) : Prop :=
  forall quiz, attempt_outcome topic r <> Ok (Return quiz).

(** ** Records, ids, slots *)

(** The keys of a question record, in order. *)
Definition record_keys : list string := ["id"; "question"; "options"; "correct_index"].

(** The slot numbers that remain to fill after [n] questions. *)
Definition missing_slots (n : nat) : list Z := map Z.of_nat (seq (S n) (5 - n)).

(** A record as [normalize_questions] builds it: the four fields, in order. *)
Definition normalized (q : pydict) : Prop :=
  exists i t o c,
    q = [("id", i); ("question", t); ("options", o); ("correct_index", c)].

(** The outcome, if it is a candidate list, is the normalization of the
    elements of some decoded value. *)
Definition from_normalize (o : outcome (option (list pydict))) : Prop :=
  forall qs, o = Ok (Some qs) ->
             exists v items, Py.iter v = Ok items /\ qs = normalize_from 0 items.

(** The [id] fields of a list of records. *)
Definition ids (quiz : list pydict) : list (option pyval) :=
  map (fun q => Dict.get q "id") quiz.






(** ** The validator, in the words of the specification *)

Section ValidatorSpec.

Context {FP : PyFloat}.

(** [question.get("correct_index", question.get("correctIndex", None))] *)
Definition index_field (q : pydict) : pyval :=
  Dict.get_default q "correct_index" (Dict.get_default q "correctIndex" PNone).

(** The last test of the validator, on the value of the index. *)
Definition index_verdict (v : pyval) : outcome bool :=
  match v with
  | PNone => Ok false
  | _ =>
      match Py.int v with
      | Ok idx => Ok (negb ((idx <? 0) || (3 <? idx))%Z)
      | Raise e => if is_ValueError_or_TypeError e then Ok false else Raise e
      end
  end.

(** The question is absent, empty, or shorter than 15 characters once
    trimmed. *)
Definition rejects_question (q : pydict) : bool :=
  match Dict.get q "question" with
  | None => true
  | Some v =>
      negb (Py.truthy v)
      || match v with
         | PStr s => (String.length (Str.strip s) <? 15)%nat
         | _ => false
         end
  end.

(** The text of the question contains, whatever the case of its letters,
    an entry of the denylist. *)
Definition rejects_denylist (q : pydict) : bool :=
  match Dict.get q "question" with
  | Some (PStr s) =>
      existsb (fun pattern => Str.contains pattern (Str.lower (Str.strip s)))
              low_quality_patterns
  | _ => false
  end.

(** The options are absent, are not a list of exactly 4 entries, or every
    entry has at most 2 characters once trimmed. *)
Definition rejects_options (q : pydict) : bool :=
  match Dict.get q "options" with
  | Some (PList options) =>
      negb (List.length options =? 4)%nat || forallb option_too_short options
  | _ => true
  end.

(** The index is absent, or does not convert to an integer between 0
    and 3. *)
Definition rejects_index (q : pydict) : bool :=
  match index_field q with
  | PNone => true
  | v =>
      match Py.int v with
      | Ok idx => ((idx <? 0) || (3 <? idx))%Z
      | Raise _ => true
      end
  end.

Definition spec_rejects (q : pydict) : bool :=
  rejects_question q || rejects_denylist q || rejects_options q || rejects_index q.

(** The question is a text, when there is one. *)
Definition text_question (q : pydict) : Prop :=
  forall v, Dict.get q "question" = Some v -> Py.truthy v = true ->
            exists s, v = PStr s.

(** The conversion of the index raises nothing but what the validator
    catches. *)
Definition index_converts (q : pydict) : Prop :=
  forall e, Py.int (index_field q) = Raise e -> is_ValueError_or_TypeError e = true.

End ValidatorSpec.

(** ** Words of a response *)

(** Every character of [s] satisfies [p]. *)
Fixpoint all_chars (p : ascii -> bool) (s : string) : bool :=
  match s with
  | EmptyString => true
  | String c s' => p c && all_chars p s'
  end.

(** A word: a non-empty text without whitespace. *)
Definition word (s : string) : Prop :=
  Str.is_empty s = false /\ all_chars (fun c => negb (Str.isspace c)) s = true.

(** The two quote characters trimmed from a response. *)
Definition quotes : string := String Py.dquote (String Py.squote EmptyString).

(** The words of a response, once its surrounding quotes are trimmed. *)
Definition response_words (text : string) : list string :=
  Str.split (Str.strip_chars quotes (Str.strip text)).

(** ** The strategies of the parser, in the words of the specification *)












(** ** Sample responses of the model *)

Module Sample.

(** A JSON string literal, for a text without quotes or backslashes. *)
Definition jstr (s : string) : string := dq ++ s ++ dq.

Definition json_object (fields : list (string * string)) : string :=
  "{" ++ Str.join ", " (map (fun kv => jstr (fst kv) ++ ": " ++ snd kv) fields) ++ "}".

Definition json_array (elements : list string) : string :=
  "[" ++ Str.join ", " elements ++ "]".

Definition capitals : string :=
  json_array [jstr "Paris"; jstr "London"; jstr "Rome"; jstr "Berlin"].

(** The fields of a question as the prompt asks for them; [question] and
    [index] are JSON texts. *)
Definition fields (question index : string) : list (string * string) :=
  [("question", question); ("options", capitals); ("correctIndex", index)].

Definition france : list (string * string) :=
  fields (jstr "What is the capital of France?") "0".
Definition england : list (string * string) :=
  fields (jstr "What is the capital of England?") "1".
Definition italy : list (string * string) :=
  fields (jstr "What is the capital of Italy?") "2".
Definition germany : list (string * string) :=
  fields (jstr "What is the capital of Germany?") "3".

(** A question whose text is too short for the validator. *)
Definition too_short : list (string * string) := fields (jstr "OK?") "0".

(** A question whose text is a number. *)
Definition numeric : list (string * string) := fields "12345" "0".

(** The candidate that the parser makes of [france], [italy], ... at
    position [i] of the array. *)
Definition candidate (i : Z) (question : string) (index : Z) : pydict :=
  [("id", PInt i); ("question", PStr question);
   ("options", PList [PStr "Paris"; PStr "London"; PStr "Rome"; PStr "Berlin"]);
   ("correct_index", PInt index)].

(** Three good questions, then one with a number for text, then a good one. *)
Definition with_numeric_question : string :=
  json_array (map json_object [france; italy; germany; numeric; england]).


(** Five questions of which the second is too short. *)
Definition with_short_question : string :=
  json_array (map json_object [france; too_short; italy; germany; england]).

Definition service : AIService := AIService_init "key" default_model.

(** A model that always answers [text]. *)
Definition answers (text : string) : nat -> string -> reply := fun _ _ => Text text.

End Sample.





(** Two fenced blocks. *)
Definition Sample_two_blocks : string :=
  "```json" ++ Str.newline
  ++ Sample.json_array [Sample.json_object Sample.france] ++ Str.newline
  ++ "```" ++ Str.newline ++ "```json" ++ Str.newline
  ++ Sample.json_array [Sample.json_object Sample.italy] ++ Str.newline ++ "```".

(** A fenced block that holds the empty array. *)
Definition Sample_empty_array : string :=
  "```json" ++ Str.newline ++ "[]" ++ Str.newline ++ "```".


(* ================================================================== *)
(** * Properties *)
(* ================================================================== *)

(** ** Computations whose outcome does not depend on the state *)

Lemma same_ret {A} (a : A) : same_outcome (ret a) (ret a).
Proof. intros w1 w2. reflexivity. Qed.

Lemma same_lift {A} (o : outcome A) : same_outcome (lift o) (lift o).
Proof. intros w1 w2. reflexivity. Qed.

Lemma same_log (s1 s2 : AIService) (m1 m2 : log_msg) :
  same_outcome (_log s1 m1) (_log s2 m2).
Proof. intros w1 w2. unfold _log. destruct (debug s1), (debug s2); reflexivity. Qed.

Lemma same_bind {A B} (m1 m2 : M A) (f1 f2 : A -> M B) :
  same_outcome m1 m2 ->
  (forall a, same_outcome (f1 a) (f2 a)) ->
  same_outcome (bind m1 f1) (bind m2 f2).
Proof.
  intros Hm Hf w1 w2. unfold bind.
  specialize (Hm w1 w2).
  destruct (m1 w1) as [[a1|e1] w1'], (m2 w2) as [[a2|e2] w2'];
    simpl in Hm; try discriminate.
  - injection Hm as ->. apply Hf.
  - injection Hm as ->. reflexivity.
Qed.

Lemma same_try {A} (b1 b2 : M A) (c : exn -> bool) (h1 h2 : exn -> M A) :
  same_outcome b1 b2 ->
  (forall e, same_outcome (h1 e) (h2 e)) ->
  same_outcome (try_except b1 c h1) (try_except b2 c h2).
Proof.
  intros Hb Hh w1 w2. unfold try_except.
  specialize (Hb w1 w2).
  destruct (b1 w1) as [[a1|e1] w1'], (b2 w2) as [[a2|e2] w2'];
    simpl in Hb; try discriminate.
  - injection Hb as ->. reflexivity.
  - injection Hb as ->. destruct (c e2); [apply Hh | reflexivity].
Qed.

Lemma quiet_ret {A} (a : A) : quiet (ret a).
Proof. intros w. split; reflexivity. Qed.

Lemma quiet_lift {A} (o : outcome A) : quiet (lift o).
Proof. intros w. split; reflexivity. Qed.

Lemma quiet_log (s : AIService) (m : log_msg) : quiet (_log s m).
Proof. intros w. unfold _log. destruct (debug s); split; reflexivity. Qed.

Lemma quiet_bind {A B} (m : M A) (f : A -> M B) :
  quiet m -> (forall a, quiet (f a)) -> quiet (bind m f).
Proof.
  intros Hm Hf w. unfold bind. specialize (Hm w).
  destruct (m w) as [[a|e] w']; simpl in Hm; destruct Hm as [Hr Hs].
  - destruct (Hf a w') as [H1 H2]. split; congruence.
  - split; assumption.
Qed.

Lemma quiet_try {A} (b : M A) (c : exn -> bool) (h : exn -> M A) :
  quiet b -> (forall e, quiet (h e)) -> quiet (try_except b c h).
Proof.
  intros Hb Hh w. unfold try_except. specialize (Hb w).
  destruct (b w) as [[a|e] w']; simpl in Hb; destruct Hb as [Hr Hs].
  - split; assumption.
  - destruct (c e).
    + destruct (Hh e w') as [H1 H2]. split; congruence.
    + split; assumption.
Qed.

(** Decompose a goal on two computations of the same shape. *)
Ltac same_step :=
  match goal with
  | |- same_outcome (bind _ _) (bind _ _) => apply same_bind; [ | intros ? ]
  | |- same_outcome (try_except _ _ _) (try_except _ _ _) => apply same_try; [ | intros ? ]
  | |- same_outcome (ret _) (ret _) => apply same_ret
  | |- same_outcome (lift _) (lift _) => apply same_lift
  | |- same_outcome (_log _ _) (_log _ _) => apply same_log
  | |- same_outcome (match ?x with _ => _ end) (match ?x with _ => _ end) => destruct x
  | |- same_outcome (let (_, _) := ?x in _) (let (_, _) := ?x in _) => destruct x
  end.

Ltac quiet_step :=
  match goal with
  | |- quiet (bind _ _) => apply quiet_bind; [ | intros ? ]
  | |- quiet (try_except _ _ _) => apply quiet_try; [ | intros ? ]
  | |- quiet (ret _) => apply quiet_ret
  | |- quiet (lift _) => apply quiet_lift
  | |- quiet (_log _ _) => apply quiet_log
  | |- quiet (match ?x with _ => _ end) => destruct x
  | |- quiet (let (_, _) := ?x in _) => destruct x
  end.

Section ParserValidatorOutcome.

Context {FP : PyFloat}.
Variables s1 s2 : AIService.

Lemma same_accept_array (l1 l2 : log_msg) (v : pyval) :
  same_outcome (accept_array s1 l1 v) (accept_array s2 l2 v).
Proof. unfold accept_array. repeat same_step. Qed.

Lemma same_accept_object (l1 l2 : log_msg) (v : pyval) :
  same_outcome (accept_object s1 l1 v) (accept_object s2 l2 v).
Proof. unfold accept_object. repeat same_step. Qed.

Lemma same_strategy1 (text : string) :
  same_outcome (strategy1 s1 text) (strategy1 s2 text).
Proof.
  unfold strategy1. repeat same_step; try apply same_accept_array;
    try apply same_accept_object.
Qed.

Lemma same_try_match (i : nat) (m : string) :
  same_outcome (try_match s1 i m) (try_match s2 i m).
Proof.
  unfold try_match.
  repeat (same_step; try apply same_accept_array; try apply same_accept_object).
Qed.

Lemma same_try_matches (i : nat) (ms : list string) :
  same_outcome (try_matches s1 i ms) (try_matches s2 i ms).
Proof.
  induction ms as [|m ms IH]; simpl.
  - apply same_ret.
  - apply same_bind; [apply same_try_match | intros [qs|]; [apply same_ret | exact IH]].
Qed.

Lemma same_try_patterns (ps : list Re.regex) (text : string) :
  forall i, same_outcome (try_patterns s1 i ps text) (try_patterns s2 i ps text).
Proof.
  induction ps as [|p ps IH]; intros i; simpl.
  - apply same_ret.
  - apply same_bind; [apply same_try_matches | intros [qs|]; [apply same_ret | apply IH]].
Qed.

Lemma same_extract_json (text : string) :
  same_outcome (_extract_json s1 text) (_extract_json s2 text).
Proof.
  unfold _extract_json.
  apply same_bind; [apply same_log | intros _].
  apply same_bind; [apply same_strategy1 | intros [qs|]; [apply same_ret | ]].
  apply same_bind; [apply same_try_patterns | intros [qs|]; [apply same_ret | ]].
  repeat same_step.
Qed.

Lemma same_validate_question (q : pydict) :
  same_outcome (_validate_question s1 q) (_validate_question s2 q).
Proof. unfold _validate_question. repeat same_step. Qed.

End ParserValidatorOutcome.

(** ** The parser and the validator as functions of their argument *)

Section PureViews.

Context {FP : PyFloat}.
Variable self : AIService.

Lemma extract_json_outcome (text : string) (w : world) :
  fst (_extract_json self text w) = parse_outcome text.
Proof. apply same_extract_json. Qed.

Lemma validate_question_outcome (q : pydict) (w : world) :
  fst (_validate_question self q w) = verdict q.
Proof. apply same_validate_question. Qed.

Lemma quiet_accept_array (l : log_msg) (v : pyval) : quiet (accept_array self l v).
Proof. unfold accept_array. repeat quiet_step. Qed.

Lemma quiet_accept_object (l : log_msg) (v : pyval) : quiet (accept_object self l v).
Proof. unfold accept_object. repeat quiet_step. Qed.

Lemma quiet_try_match (i : nat) (m : string) : quiet (try_match self i m).
Proof.
  unfold try_match.
  repeat (quiet_step; try apply quiet_accept_array; try apply quiet_accept_object).
Qed.

Lemma quiet_try_matches (i : nat) (ms : list string) : quiet (try_matches self i ms).
Proof.
  induction ms as [|m ms IH]; simpl.
  - apply quiet_ret.
  - apply quiet_bind; [apply quiet_try_match | intros [qs|]; [apply quiet_ret | exact IH]].
Qed.

Lemma quiet_try_patterns (ps : list Re.regex) (text : string) :
  forall i, quiet (try_patterns self i ps text).
Proof.
  induction ps as [|p ps IH]; intros i; simpl.
  - apply quiet_ret.
  - apply quiet_bind; [apply quiet_try_matches | intros [qs|]; [apply quiet_ret | apply IH]].
Qed.

Lemma quiet_extract_json (text : string) : quiet (_extract_json self text).
Proof.
  unfold _extract_json, strategy1.
  repeat (quiet_step; try apply quiet_accept_array; try apply quiet_accept_object;
          try apply quiet_try_patterns).
Qed.

Lemma quiet_validate_question (q : pydict) : quiet (_validate_question self q).
Proof. unfold _validate_question. repeat quiet_step. Qed.

Lemma quiet_collect_valid (qs : list pydict) :
  forall valid, quiet (collect_valid self qs valid).
Proof.
  induction qs as [|q qs IH]; intros valid; simpl.
  - apply quiet_ret.
  - apply quiet_bind; [apply quiet_validate_question | intros [|]].
    + apply quiet_bind; [apply quiet_log | intros _; apply IH].
    + apply IH.
Qed.

(** The loop over the candidates keeps those that pass, in their order,
    and raises what the validator raises. *)
Lemma collect_valid_outcome (qs : list pydict) :
  forall valid w,
    fst (collect_valid self qs valid w) =
    match passing qs with
    | Ok l => Ok (valid ++ l)%list
    | Raise e => Raise e
    end.
Proof.
  induction qs as [|q qs IH]; intros valid w; simpl.
  - rewrite app_nil_r. reflexivity.
  - unfold bind.
    pose proof (validate_question_outcome q w) as Hq.
    destruct (_validate_question self q w) as [[b|e] w1]; simpl in Hq; rewrite <- Hq.
    + destruct b.
      * destruct (_log self (LValidQuestion (question_head q)) w1) as [[u|e] w2] eqn:El.
        -- rewrite IH. destruct (passing qs); [rewrite <- app_assoc|]; reflexivity.
        -- unfold _log in El. destruct (debug self); discriminate.
      * rewrite IH. destruct (passing qs); reflexivity.
    + reflexivity.
Qed.

End PureViews.

(** ** One attempt, and the retry loop *)

Section Orchestrator.

Context {FP : PyFloat}.
Variable self : AIService.
Variable generate_content : nat -> string -> reply.

Lemma log_run (m : log_msg) (w : world) :
  exists w', _log self m w = (Ok tt, w')
             /\ requests w' = requests w /\ slept w' = slept w.
Proof.
  unfold _log. destruct (debug self); eexists; repeat split; reflexivity.
Qed.

Lemma make_request_run (prompt : string) (w : world) :
  exists w',
    _make_request self generate_content prompt w =
      (match generate_content (requests w) prompt with
       | Text text => if Str.is_empty text then Ok None else Ok (Some text)
       | Failure err => Raise (GeminiError (ApiError err))
       end, w')
    /\ requests w' = S (requests w).
Proof.
  unfold _make_request, try_except, bind, ret, raise, call_model.
  destruct (log_run (LMakingRequest (model_name self)) w) as (w1 & -> & Hr1 & _).
  rewrite Hr1.
  destruct (generate_content (requests w) prompt) as [text|err]; simpl.
  - destruct (Str.is_empty text); simpl.
    + match goal with |- context [_log self ?m ?x] =>
        destruct (log_run m x) as (w2 & -> & Hr2 & _) end.
      eexists; split; [reflexivity | simpl in Hr2; congruence].
    + match goal with |- context [_log self ?m ?x] =>
        destruct (log_run m x) as (w2 & -> & Hr2 & _) end.
      eexists; split; [reflexivity | simpl in Hr2; congruence].
  - match goal with |- context [_log self ?m ?x] =>
      destruct (log_run m x) as (w2 & -> & Hr2 & _) end.
    eexists; split; [reflexivity | simpl in Hr2; congruence].
Qed.

Lemma attempt_body_run (topic prompt : string) (w : world) :
  exists w',
    attempt_body self generate_content topic prompt w =
      (attempt_outcome topic (generate_content (requests w) prompt), w')
    /\ requests w' = S (requests w).
Proof.
  unfold attempt_body, attempt_outcome.
  unfold bind at 1.
  destruct (make_request_run prompt w) as (w1 & -> & Hr1).
  destruct (generate_content (requests w) prompt) as [text|err].
  2:{ eexists; split; [reflexivity | exact Hr1]. }
  destruct (Str.is_empty text).
  { eexists; split; [reflexivity | exact Hr1]. }
  unfold bind.
  pose proof (extract_json_outcome self text w1) as Hp.
  pose proof (quiet_extract_json self text w1) as [Hq _].
  destruct (_extract_json self text w1) as [[[questions|]|e] w2];
    cbn [fst snd] in Hp, Hq; rewrite <- Hp.
  - pose proof (collect_valid_outcome self (firstn 5 questions) [] w2) as Hc.
    pose proof (quiet_collect_valid self (firstn 5 questions) [] w2) as [Hq2 _].
    destruct (collect_valid self (firstn 5 questions) [] w2) as [[valid|e] w3];
      cbn [fst snd] in Hc, Hq2.
    + destruct (passing (firstn 5 questions)) as [l|e]; [|discriminate].
      cbn [app] in Hc. injection Hc as ->.
      destruct (3 <=? List.length l)%nat.
      * match goal with |- context [_log self ?m ?x] =>
          destruct (log_run m x) as (w4 & -> & Hr4 & _) end.
        eexists; split; [reflexivity | congruence].
      * match goal with |- context [_log self ?m ?x] =>
          destruct (log_run m x) as (w4 & -> & Hr4 & _) end.
        eexists; split; [reflexivity | congruence].
    + destruct (passing (firstn 5 questions)) as [l|e']; [discriminate|].
      injection Hc as <-.
      eexists; split; [reflexivity | congruence].
  - eexists; split; [reflexivity | congruence].
  - eexists; split; [reflexivity | congruence].
Qed.

(** The retry loop never raises; it returns the quiz of [quiz_from] and
    sends the requests counted there. *)
Lemma attempts_run (topic prompt : string) (todo : nat) :
  forall attempt err w,
  exists w',
    attempts self generate_content todo attempt topic prompt err w =
      (Ok (fst (quiz_from generate_content topic prompt todo (requests w))), w')
    /\ requests w' =
       requests w + snd (quiz_from generate_content topic prompt todo (requests w)).
Proof.
  induction todo as [|todo IH]; intros attempt err w; simpl.
  - unfold bind, ret.
    destruct (log_run (LAllAttemptsFailed err) w) as (w1 & -> & Hr1 & _).
    eexists; split; [reflexivity | simpl; lia].
  - unfold bind at 1.
    destruct (log_run (LAttempt (attempt + 1) (max_retries self) topic) w)
      as (w1 & -> & Hr1 & _).
    unfold bind at 1. unfold try_except.
    destruct (attempt_body_run topic prompt w1) as (w2 & -> & Hr2).
    rewrite Hr1.
    assert (Hnext : forall err' w3, requests w3 = S (requests w) ->
              exists w',
                ((if (attempt <? max_retries self - 1)%nat
                  then _log self (LWaiting (retry_delay self));; sleep (retry_delay self)
                  else ret tt);;
                 attempts self generate_content todo (S attempt) topic prompt err') w3 =
                (Ok (fst (quiz_from generate_content topic prompt todo (S (requests w)))), w')
                /\ requests w' =
                   S (requests w + snd (quiz_from generate_content topic prompt todo
                                                  (S (requests w))))).
    { intros err' w3 Hr3. unfold bind at 1.
      destruct (attempt <? max_retries self - 1)%nat.
      - unfold bind at 1.
        destruct (log_run (LWaiting (retry_delay self)) w3) as (w4 & -> & Hr4 & _).
        unfold sleep.
        match goal with |- context [attempts _ _ _ _ _ _ ?e ?x] =>
          destruct (IH (S attempt) e x) as (w5 & Hrun & Hr5) end.
        rewrite Hrun. cbn [requests] in Hr5 |- *. rewrite Hr4, Hr3 in Hr5 |- *.
        eexists; split; [reflexivity | lia].
      - unfold ret at 1.
        destruct (IH (S attempt) err' w3) as (w5 & Hrun & Hr5).
        rewrite Hrun. rewrite Hr3 in Hr5 |- *.
        eexists; split; [reflexivity | lia]. }
    destruct (attempt_outcome topic (generate_content (requests w) prompt))
      as [[quiz|err']|e]; simpl.
    + eexists; split; [reflexivity | simpl; lia].
    + destruct (Hnext err' w2) as (w' & Hrun & Hreq); [congruence|].
      destruct (quiz_from generate_content topic prompt todo (S (requests w))) as [quiz k].
      simpl in *. rewrite Hrun. eexists; split; [reflexivity | lia].
    + unfold bind at 1.
      destruct (log_run (LErrorOnAttempt (attempt + 1) e) w2) as (w3 & -> & Hr3 & _).
      unfold ret at 1.
      destruct (Hnext (Some (ErrorText e)) w3) as (w' & Hrun & Hreq); [congruence|].
      destruct (quiz_from generate_content topic prompt todo (S (requests w))) as [quiz k].
      simpl in *. rewrite Hrun. eexists; split; [reflexivity | lia].
Qed.

Lemma generate_quiz_run (topic : string) (w : world) :
  exists w',
    generate_quiz self generate_content topic w =
      (Ok (fst (quiz_from generate_content topic (quiz_prompt topic)
                          (max_retries self) (requests w))), w')
    /\ requests w' =
       requests w + snd (quiz_from generate_content topic (quiz_prompt topic)
                                   (max_retries self) (requests w)).
Proof. apply attempts_run. Qed.

End Orchestrator.

(** ** The fallback generator and the padding loop *)

Lemma bank_get_shape (topic : string) :
  let l := bank_get fallback_questions topic (default_questions topic) in
  List.length l = 5
  /\ Forall (fun e => exists q o c, e = question_entry q o c) l.
Proof.
  unfold fallback_questions. cbn [bank_get].
  repeat match goal with
         | |- context [String.eqb topic ?s] => destruct (String.eqb topic s)
         end;
    (split; [reflexivity | repeat constructor; eexists _, _, _; reflexivity]).
Qed.

Lemma with_id_entry (i : Z) (q : string) (o : list string) (c : Z) :
  with_id i (question_entry q o c) =
  [("id", PInt i); ("question", PStr q); ("options", PList (map PStr o));
   ("correct_index", PInt c)].
Proof. reflexivity. Qed.

(** A fallback question is a full record whose [id] is the slot asked for. *)
Lemma fallback_question_shape (topic : string) (i : Z) :
  exists q o c,
    _generate_fallback_question topic i =
    [("id", PInt i); ("question", PStr q); ("options", PList (map PStr o));
     ("correct_index", PInt c)].
Proof.
  unfold _generate_fallback_question.
  destruct (bank_get_shape topic) as [Hlen Hall].
  set (l := bank_get fallback_questions topic (default_questions topic)) in *.
  rewrite Hlen.
  assert (Hidx : (0 <= (i - 1) mod Z.of_nat 5 < 5)%Z) by (apply Z.mod_pos_bound; lia).
  assert (Hin : In (nth (Z.to_nat ((i - 1) mod Z.of_nat 5)) l []) l)
    by (apply nth_In; lia).
  rewrite Forall_forall in Hall.
  destruct (Hall _ Hin) as (q & o & c & ->).
  exists q, o, c. apply with_id_entry.
Qed.

Lemma fallback_question_keys (topic : string) (i : Z) :
  Dict.keys (_generate_fallback_question topic i) = record_keys.
Proof. destruct (fallback_question_shape topic i) as (q & o & c & ->). reflexivity. Qed.


(** The [while] loop appends the fallback questions of the missing slots;
    five rounds are always enough. *)
Lemma pad_with_fallback_eq (topic : string) (fuel : nat) :
  forall valid,
    5 - List.length valid <= fuel ->
    pad_with_fallback fuel topic valid =
    (valid ++ map (_generate_fallback_question topic) (missing_slots (List.length valid)))%list.
Proof.
  induction fuel as [|fuel IH]; intros valid Hf; simpl.
  - destruct (Nat.ltb_spec (List.length valid) 5); [lia|].
    unfold missing_slots. replace (5 - List.length valid) with 0 by lia.
    simpl. rewrite app_nil_r. reflexivity.
  - destruct (Nat.ltb_spec (List.length valid) 5) as [Hlt|Hge].
    + rewrite IH by (rewrite length_app; cbn [List.length]; lia).
      rewrite length_app. cbn [List.length].
      rewrite <- app_assoc. f_equal.
      unfold missing_slots.
      replace (5 - List.length valid) with (S (5 - (List.length valid + 1))) by lia.
      simpl. f_equal.
      * f_equal. lia.
      * replace (List.length valid + 1) with (S (List.length valid)) by lia. reflexivity.
    + unfold missing_slots. replace (5 - List.length valid) with 0 by lia.
      simpl. rewrite app_nil_r. reflexivity.
Qed.

Lemma missing_slots_length (n : nat) : List.length (missing_slots n) = 5 - n.
Proof. unfold missing_slots. rewrite length_map, length_seq. reflexivity. Qed.

Lemma padded_length (topic : string) (valid : list pydict) :
  List.length (firstn 5 (pad_with_fallback 5 topic valid)) = 5.
Proof.
  rewrite pad_with_fallback_eq by lia.
  rewrite length_firstn, length_app, length_map, missing_slots_length. lia.
Qed.

(** A quiz accepted from a response: the passing candidates, then the
    fallback questions of the remaining slots. *)
Lemma padded_eq (topic : string) (valid : list pydict) :
  List.length valid <= 5 ->
  firstn 5 (pad_with_fallback 5 topic valid) =
  (valid ++ map (_generate_fallback_question topic) (missing_slots (List.length valid)))%list.
Proof.
  intros Hle. rewrite pad_with_fallback_eq by lia.
  apply firstn_all2.
  rewrite length_app, length_map, missing_slots_length. lia.
Qed.

Lemma passing_length {FP : PyFloat} (qs : list pydict) :
  forall l, passing qs = Ok l -> List.length l <= List.length qs.
Proof.
  induction qs as [|q qs IH]; intros l H; simpl in H.
  - injection H as <-. simpl. lia.
  - destruct (verdict q) as [b|e]; [|discriminate].
    destruct (passing qs) as [l'|e]; [|discriminate].
    injection H as <-. specialize (IH l' eq_refl).
    destruct b; simpl; lia.
Qed.

(** Every candidate kept passed the validator and was among those given. *)
Lemma passing_In {FP : PyFloat} (qs : list pydict) :
  forall l q, passing qs = Ok l -> In q l -> In q qs /\ verdict q = Ok true.
Proof.
  induction qs as [|q0 qs IH]; intros l q H Hin; simpl in H.
  - injection H as <-. destruct Hin.
  - destruct (verdict q0) as [b|e] eqn:Hv; [|discriminate].
    destruct (passing qs) as [l'|e]; [|discriminate].
    injection H as <-.
    destruct b.
    + destruct Hin as [<-|Hin].
      * split; [left; reflexivity | exact Hv].
      * destruct (IH l' q eq_refl Hin). split; [right|]; assumption.
    + destruct (IH l' q eq_refl Hin). split; [right|]; assumption.
Qed.

Lemma passing_first5_length {FP : PyFloat} (qs : list pydict) (l : list pydict) :
  passing (firstn 5 qs) = Ok l -> List.length l <= 5.
Proof.
  intros H. apply passing_length in H. rewrite length_firstn in H. lia.
Qed.

(** ** What a computation can come to *)

Lemma always_ret {A} (a : A) (Q : outcome A -> Prop) : Q (Ok a) -> always (ret a) Q.
Proof. intros H w. exact H. Qed.

Lemma always_lift {A} (o : outcome A) (Q : outcome A -> Prop) : Q o -> always (lift o) Q.
Proof. intros H w. exact H. Qed.

Lemma always_log (s : AIService) (m : log_msg) (Q : outcome unit -> Prop) :
  Q (Ok tt) -> always (_log s m) Q.
Proof. intros H w. unfold _log. destruct (debug s); exact H. Qed.

Lemma always_bind {A B} (m : M A) (f : A -> M B) (Q : outcome B -> Prop) :
  always m (fun o => match o with
                     | Ok a => always (f a) Q
                     | Raise e => Q (Raise e)
                     end) ->
  always (bind m f) Q.
Proof.
  intros H w. unfold bind. specialize (H w).
  destruct (m w) as [[a|e] w']; simpl in *; [apply H | exact H].
Qed.

Lemma always_try {A} (b : M A) (c : exn -> bool) (h : exn -> M A)
      (Q : outcome A -> Prop) :
  always b (fun o => match o with
                     | Ok a => Q (Ok a)
                     | Raise e => if c e then always (h e) Q else Q (Raise e)
                     end) ->
  always (try_except b c h) Q.
Proof.
  intros H w. unfold try_except. specialize (H w).
  destruct (b w) as [[a|e] w']; simpl in *; [exact H | ].
  destruct (c e); [apply H | exact H].
Qed.

Lemma always_weaken {A} (m : M A) (P Q : outcome A -> Prop) :
  always m P -> (forall o, P o -> Q o) -> always m Q.
Proof. intros H HPQ w. apply HPQ, H. Qed.

(** ** The candidate lists of the parser are normalized *)

Lemma normalize_from_normalized (items : list pyval) :
  forall i, Forall normalized (normalize_from i items).
Proof.
  induction items as [|v items IH]; intros i; simpl.
  - constructor.
  - destruct v; try apply IH.
    constructor; [ | apply IH].
    eexists _, _, _, _. reflexivity.
Qed.

Lemma from_normalize_none : from_normalize (Ok None).
Proof. intros qs H. discriminate. Qed.

Lemma from_normalize_raise (e : exn) : from_normalize (Raise e).
Proof. intros qs H. discriminate. Qed.

Lemma always_normalize (s : AIService) (l : log_msg) (v : pyval) :
  always (_log s l;; qs <- lift (normalize_questions v);; ret (Some qs)) from_normalize.
Proof.
  apply always_bind, always_log, always_bind, always_lift.
  unfold normalize_questions.
  destruct (Py.iter v) as [items|e] eqn:Hv.
  - apply always_ret. intros qs H. injection H as <-. exists v, items. auto.
  - apply from_normalize_raise.
Qed.

Lemma always_accept_array (s : AIService) (l : log_msg) (v : pyval) :
  always (accept_array s l v) from_normalize.
Proof.
  unfold accept_array.
  destruct v as [| | | | |[|x xs]|]; try (apply always_ret, from_normalize_none).
  apply always_normalize.
Qed.

Lemma always_accept_object (s : AIService) (l : log_msg) (v : pyval) :
  always (accept_object s l v) from_normalize.
Proof.
  unfold accept_object.
  destruct v; try (apply always_ret, from_normalize_none).
  destruct (Dict.get entries "questions"); [ | apply always_ret, from_normalize_none].
  apply always_normalize.
Qed.

Lemma always_strategy1 (s : AIService) (text : string) :
  always (strategy1 s text) from_normalize.
Proof.
  unfold strategy1. apply always_try, always_bind, always_lift.
  destruct (Json.loads (Str.strip text)) as [parsed|e].
  - apply always_bind.
    eapply always_weaken; [apply always_accept_array | ].
    intros [[qs|]|e] H.
    + apply always_ret. exact H.
    + eapply always_weaken; [apply always_accept_object | ].
      intros [r|e] H'; [exact H' | destruct (is_JSONDecodeError e)].
      * apply always_ret, from_normalize_none.
      * apply from_normalize_raise.
    + destruct (is_JSONDecodeError e).
      * apply always_ret, from_normalize_none.
      * apply from_normalize_raise.
  - destruct (is_JSONDecodeError e).
    + apply always_ret, from_normalize_none.
    + apply from_normalize_raise.
Qed.

Lemma always_try_match (s : AIService) (i : nat) (m : string) :
  always (try_match s i m) from_normalize.
Proof.
  unfold try_match. apply always_try.
  eapply always_weaken with (P := from_normalize).
  - apply always_bind.
    destruct (Str.startswith (Str.strip m) "[").
    + apply always_bind, always_lift.
      match goal with |- context [Json.loads ?x] => destruct (Json.loads x) as [parsed|e] end;
        [ | apply from_normalize_raise].
      apply always_bind.
      eapply always_weaken; [apply always_accept_array | ].
      intros [[qs|]|e] H; [ | | apply from_normalize_raise].
      * apply always_ret, always_ret. exact H.
      * apply always_ret.
        match goal with |- context [negb ?c] => destruct c end; cbn [negb].
        -- apply always_ret, from_normalize_none.
        -- apply always_bind, always_lift.
           match goal with |- context [Json.loads ?x] => destruct (Json.loads x) end;
             [apply always_accept_object | apply from_normalize_raise].
    + apply always_ret.
      match goal with |- context [negb ?c] => destruct c end; cbn [negb].
      * apply always_ret, from_normalize_none.
      * apply always_bind, always_lift.
        match goal with |- context [Json.loads ?x] => destruct (Json.loads x) end;
          [apply always_accept_object | apply from_normalize_raise].
  - intros [r|e] H; [exact H | ].
    destruct (is_JSONDecodeError e); [ | apply from_normalize_raise].
    apply always_bind, always_log, always_ret, from_normalize_none.
Qed.

Lemma always_try_matches (s : AIService) (i : nat) (ms : list string) :
  always (try_matches s i ms) from_normalize.
Proof.
  induction ms as [|m ms IH]; simpl.
  - apply always_ret, from_normalize_none.
  - apply always_bind.
    eapply always_weaken; [apply always_try_match | ].
    intros [[qs|]|e] H; [apply always_ret; exact H | exact IH | exact H].
Qed.

Lemma always_try_patterns (s : AIService) (ps : list Re.regex) (text : string) :
  forall i, always (try_patterns s i ps text) from_normalize.
Proof.
  induction ps as [|p ps IH]; intros i; simpl.
  - apply always_ret, from_normalize_none.
  - apply always_bind.
    eapply always_weaken; [apply always_try_matches | ].
    intros [[qs|]|e] H; [apply always_ret; exact H | apply IH | exact H].
Qed.

Lemma always_extract_json (s : AIService) (text : string) :
  always (_extract_json s text) from_normalize.
Proof.
  unfold _extract_json.
  apply always_bind, always_log, always_bind.
  eapply always_weaken; [apply always_strategy1 | ].
  intros [[qs|]|e] H; [apply always_ret; exact H | | exact H].
  apply always_bind.
  eapply always_weaken; [apply always_try_patterns | ].
  intros [[qs|]|e] H'; [apply always_ret; exact H' | | exact H'].
  apply always_bind, always_log, always_ret, from_normalize_none.
Qed.

(** Every candidate list the parser returns is the normalization of the
    elements of a decoded value. *)
Lemma parse_outcome_normalized (text : string) (qs : list pydict) :
  parse_outcome text = Ok (Some qs) ->
  (exists v items, Py.iter v = Ok items /\ qs = normalize_from 0 items)
  /\ Forall normalized qs.
Proof.
  intros H.
  pose proof (always_extract_json silent text empty_world) as Hn.
  destruct (Hn qs H) as (v & items & Hv & ->).
  split; [exists v, items; auto | apply normalize_from_normalized].
Qed.

(** ** The quiz returned by the retry loop *)

Lemma In_first {A} (n : nat) (l : list A) (x : A) : In x (firstn n l) -> In x l.
Proof.
  intros H. rewrite <- (firstn_skipn n l). apply in_or_app. left. exact H.
Qed.

Section QuizFrom.

Context {FP : PyFloat}.
Variable generate_content : nat -> string -> reply.
Variables topic prompt : string.

(** An attempt is accepted only on a non-empty response from which the
    parser gets candidates of which at least three of the first five pass;
    the quiz is then these, followed by the fallback questions of the slots
    that remain. *)
Lemma attempt_outcome_return (r : reply) (quiz : list pydict) :
  attempt_outcome topic r = Ok (Return quiz) ->
  exists text questions valid,
    r = Text text /\ Str.is_empty text = false
    /\ parse_outcome text = Ok (Some questions)
    /\ passing (firstn 5 questions) = Ok valid
    /\ 3 <= List.length valid <= 5
    /\ quiz = (valid ++ map (_generate_fallback_question topic)
                            (missing_slots (List.length valid)))%list.
Proof.
  unfold attempt_outcome. intros H.
  destruct r as [text|err]; [ | discriminate].
  destruct (Str.is_empty text) eqn:He; [discriminate | ].
  destruct (parse_outcome text) as [[questions|]|e] eqn:Hp; try discriminate.
  destruct (passing (firstn 5 questions)) as [valid|e] eqn:Hv; [ | discriminate].
  destruct (Nat.leb_spec 3 (List.length valid)) as [H3|H3]; [ | discriminate].
  injection H as <-.
  pose proof (passing_first5_length _ Hv) as H5.
  exists text, questions, valid.
  repeat split; auto. apply padded_eq. exact H5.
Qed.

Lemma attempt_outcome_accept (text : string) (questions valid : list pydict) :
  Str.is_empty text = false ->
  parse_outcome text = Ok (Some questions) ->
  passing (firstn 5 questions) = Ok valid ->
  3 <= List.length valid ->
  attempt_outcome topic (Text text) =
  Ok (Return (valid ++ map (_generate_fallback_question topic)
                           (missing_slots (List.length valid))))%list.
Proof.
  intros He Hp Hv H3. unfold attempt_outcome. rewrite He, Hp, Hv.
  destruct (Nat.leb_spec 3 (List.length valid)); [ | lia].
  rewrite padded_eq; [reflexivity | ].
  eapply passing_first5_length; eassumption.
Qed.

Lemma failure_fails (err : string) : fails topic (Failure err).
Proof. intros quiz H. discriminate. Qed.

Lemma empty_text_fails : fails topic (Text EmptyString).
Proof. intros quiz H. discriminate. Qed.

Lemma quiz_from_fail (todo n : nat) :
  fails topic (generate_content n prompt) ->
  quiz_from generate_content topic prompt (S todo) n =
  (fst (quiz_from generate_content topic prompt todo (S n)),
   S (snd (quiz_from generate_content topic prompt todo (S n)))).
Proof.
  intros Hf. simpl.
  destruct (attempt_outcome topic (generate_content n prompt)) as [[quiz|err]|e] eqn:Ha;
    [exfalso; eapply Hf; eassumption | | ];
    destruct (quiz_from generate_content topic prompt todo (S n)); reflexivity.
Qed.

(** When every attempt fails the quiz is the fallback one, after as many
    requests as attempts. *)
Lemma quiz_from_all_fail (todo : nat) :
  forall n,
    (forall k, k < todo -> fails topic (generate_content (n + k) prompt)) ->
    quiz_from generate_content topic prompt todo n =
    (_generate_fallback_questions topic, todo).
Proof.
  induction todo as [|todo IH]; intros n H.
  - reflexivity.
  - rewrite quiz_from_fail.
    + rewrite IH; [reflexivity | ].
      intros k Hk. replace (S n + k) with (n + S k) by lia. apply H. lia.
    + replace n with (n + 0) by lia. apply H. lia.
Qed.

(** When the attempts before the [k]-th fail and the [k]-th is accepted,
    its quiz is returned after [k + 1] requests. *)
Lemma quiz_from_accept (todo : nat) :
  forall n k quiz,
    k < todo ->
    (forall j, j < k -> fails topic (generate_content (n + j) prompt)) ->
    attempt_outcome topic (generate_content (n + k) prompt) = Ok (Return quiz) ->
    quiz_from generate_content topic prompt todo n = (quiz, S k).
Proof.
  induction todo as [|todo IH]; intros n k quiz Hk Hfail Hacc; [lia | ].
  destruct k as [|k].
  - simpl. replace (n + 0) with n in Hacc by lia. rewrite Hacc. reflexivity.
  - rewrite quiz_from_fail.
    + rewrite (IH (S n) k quiz); [reflexivity | lia | | ].
      * intros j Hj. replace (S n + j) with (n + S j) by lia. apply Hfail. lia.
      * replace (S n + k) with (n + S k) by lia. exact Hacc.
    + replace n with (n + 0) by lia. apply Hfail. lia.
Qed.

(** The quiz has five entries, each a full question record. *)
Lemma quiz_from_shape (todo : nat) :
  forall n,
    let quiz := fst (quiz_from generate_content topic prompt todo n) in
    List.length quiz = 5 /\ Forall (fun q => Dict.keys q = record_keys) quiz.
Proof.
  induction todo as [|todo IH]; intros n; simpl.
  - split; [reflexivity | ].
    unfold _generate_fallback_questions.
    repeat constructor; apply fallback_question_keys.
  - destruct (attempt_outcome topic (generate_content n prompt)) as [[quiz|err]|e] eqn:Ha.
    + simpl.
      destruct (attempt_outcome_return _ Ha)
        as (text & questions & valid & _ & _ & Hp & Hv & Hlen & ->).
      split.
      * rewrite length_app, length_map, missing_slots_length. lia.
      * apply Forall_app. split.
        -- apply Forall_forall. intros q Hq.
           destruct (passing_In _ _ Hv Hq) as [Hin _].
           apply In_first in Hin.
           destruct (parse_outcome_normalized _ Hp) as [_ Hn].
           rewrite Forall_forall in Hn.
           destruct (Hn q Hin) as (i & t & o & c & ->). reflexivity.
        -- apply Forall_forall. intros q Hq.
           apply in_map_iff in Hq. destruct Hq as (i & <- & _).
           apply fallback_question_keys.
    + specialize (IH (S n)).
      destruct (quiz_from generate_content topic prompt todo (S n)). exact IH.
    + specialize (IH (S n)).
      destruct (quiz_from generate_content topic prompt todo (S n)). exact IH.
Qed.

End QuizFrom.

(** ** The validator *)

Section Validator.

Context {FP : PyFloat}.

(** The outcome of the validator, test after test. *)
Lemma verdict_unfold (q : pydict) :
  verdict q =
  match Dict.get q "question" with
  | None => Ok false
  | Some qv =>
      if negb (Py.truthy qv) then Ok false
      else
        match strip_method qv with
        | Raise e => Raise e
        | Ok q_text =>
            if (String.length q_text <? 15)%nat then Ok false
            else
              match find_low_quality (Str.lower q_text) with
              | Some _ => Ok false
              | None =>
                  match Dict.get q "options" with
                  | Some (PList options) =>
                      if negb (List.length options =? 4)%nat then Ok false
                      else if forallb option_too_short options then Ok false
                      else index_verdict (index_field q)
                  | _ => Ok false
                  end
              end
        end
  end.
Proof.
  unfold verdict, _validate_question, index_verdict, index_field.
  destruct (Dict.get q "question") as [qv|]; [ | reflexivity].
  destruct (negb (Py.truthy qv)); [reflexivity | ].
  unfold bind at 1. unfold lift at 1.
  destruct (strip_method qv) as [q_text|e]; [ | reflexivity].
  destruct (String.length q_text <? 15)%nat; [reflexivity | ].
  destruct (find_low_quality (Str.lower q_text)); [reflexivity | ].
  destruct (Dict.get q "options") as [[| | | | |options|]|]; try reflexivity.
  destruct (negb (List.length options =? 4)%nat); [reflexivity | ].
  destruct (forallb option_too_short options); [reflexivity | ].
  set (v := Dict.get_default q "correct_index"
              (Dict.get_default q "correctIndex" PNone)).
  unfold bind, try_except, lift, ret.
  destruct v; try reflexivity;
    match goal with
    | |- context [Py.int ?x] => destruct (Py.int x) as [idx|e]
    end; cbn [fst];
    try (destruct ((idx <? 0) || (3 <? idx))%Z; reflexivity);
    try (destruct (is_ValueError_or_TypeError e); reflexivity).
Qed.

Lemma find_none_existsb {A} (f : A -> bool) (l : list A) :
  List.find f l = None <-> existsb f l = false.
Proof.
  induction l as [|a l IH]; simpl; [tauto | ].
  destruct (f a); simpl; [split; discriminate | exact IH].
Qed.

Lemma find_some_existsb {A} (f : A -> bool) (l : list A) (a : A) :
  List.find f l = Some a -> existsb f l = true.
Proof.
  intros H. destruct (existsb f l) eqn:E; [reflexivity | ].
  apply find_none_existsb in E. congruence.
Qed.

(** On the candidates whose question is a text, and whose index is not an
    infinite float, the validator rejects exactly on the grounds of the
    specification, and accepts otherwise. *)
Lemma validator_matches_spec (q : pydict) :
  text_question q ->
  index_converts q ->
  verdict q = Ok (negb (spec_rejects q)).
Proof.
  intros Htext Hidx. rewrite verdict_unfold.
  unfold spec_rejects, rejects_question, rejects_denylist, rejects_options, rejects_index.
  destruct (Dict.get q "question") as [qv|] eqn:Hq; [ | reflexivity].
  destruct (Py.truthy qv) eqn:Ht; [ | reflexivity].
  destruct (Htext qv Hq Ht) as [s ->].
  cbn [negb orb strip_method].
  destruct (String.length (Str.strip s) <? 15)%nat; [reflexivity | ].
  cbn [orb]. unfold find_low_quality.
  destruct (List.find _ low_quality_patterns) as [p|] eqn:Hf.
  - apply find_some_existsb in Hf. rewrite Hf. reflexivity.
  - apply find_none_existsb in Hf. rewrite Hf. cbn [orb].
    destruct (Dict.get q "options") as [[| | | | |options|]|]; try reflexivity.
    destruct (negb (List.length options =? 4)%nat); [reflexivity | ].
    destruct (forallb option_too_short options); [reflexivity | ].
    cbn [orb]. unfold index_verdict. unfold index_converts in Hidx.
    revert Hidx.
    destruct (index_field q); intros Hidx; try reflexivity;
      match goal with
      | |- context [Py.int ?x] => destruct (Py.int x) as [idx|e] eqn:Hi
      end; try reflexivity;
      rewrite (Hidx e eq_refl); reflexivity.
Qed.

(** A question that is neither empty nor a text makes the validator
    raise, whatever the other fields. *)
Lemma verdict_non_text (q : pydict) (v : pyval) :
  Dict.get q "question" = Some v ->
  Py.truthy v = true ->
  (forall s, v <> PStr s) ->
  verdict q = Raise AttributeError.
Proof.
  intros Hq Ht Hs. rewrite verdict_unfold, Hq, Ht. cbn [negb].
  destruct v; try reflexivity. exfalso. eapply Hs. reflexivity.
Qed.

End Validator.

(** ** Accepted attempts and the numbering of the quiz *)








Section QuizCases.

Context {FP : PyFloat}.
Variable generate_content : nat -> string -> reply.
Variables topic prompt : string.


End QuizCases.

(** The positive content of the acceptance rule: when the attempts before
    the [k]-th fail, the [k]-th response yields candidates, the validator
    gives a verdict on each of the first five and at least three pass, the
    quiz is these candidates in their order followed by the fallback
    questions of the remaining slots, after [k + 1] requests. Candidates
    beyond the fifth play no part. *)
Lemma accepted_attempt_quiz {FP : PyFloat} (self : AIService)
      (generate_content : nat -> string -> reply) (topic : string) (w : world)
      (k : nat) (text : string) (questions valid : list pydict) :
  k < max_retries self ->
  (forall j, j < k ->
             fails topic (generate_content (requests w + j) (quiz_prompt topic))) ->
  generate_content (requests w + k) (quiz_prompt topic) = Text text ->
  Str.is_empty text = false ->
  parse_outcome text = Ok (Some questions) ->
  passing (firstn 5 questions) = Ok valid ->
  3 <= List.length valid ->
  exists w',
    generate_quiz self generate_content topic w =
      (Ok (valid ++ map (_generate_fallback_question topic)
                        (missing_slots (List.length valid)))%list, w')
    /\ requests w' = requests w + S k.
Proof.
  intros Hk Hfail Hreply He Hp Hv H3.
  destruct (generate_quiz_run self generate_content topic w) as (w' & Hrun & Hreq).
  assert (Hq : quiz_from generate_content topic (quiz_prompt topic)
                         (max_retries self) (requests w)
               = ((valid ++ map (_generate_fallback_question topic)
                                (missing_slots (List.length valid)))%list, S k)).
  { eapply quiz_from_accept; [exact Hk | exact Hfail | ].
    rewrite Hreply. eapply attempt_outcome_accept; eassumption. }
  rewrite Hq in Hrun, Hreq.
  exists w'. split; [exact Hrun | exact Hreq].
Qed.

(** ** The validator on the examples of the specification *)

Section ValidatorExamples.

Context {FP : PyFloat}.

(** A question whose text contains an entry of the denylist is rejected
    whatever its other fields. *)
Lemma denylisted_question_rejected (q : pydict) (s pattern : string) :
  Dict.get q "question" = Some (PStr s) ->
  In pattern low_quality_patterns ->
  Str.contains pattern (Str.lower (Str.strip s)) = true ->
  verdict q = Ok false.
Proof.
  intros Hq Hin Hc. rewrite verdict_unfold, Hq.
  destruct (negb (Py.truthy (PStr s))); [reflexivity | ].
  cbn [strip_method].
  destruct (String.length (Str.strip s) <? 15)%nat; [reflexivity | ].
  destruct (find_low_quality (Str.lower (Str.strip s))) as [p|] eqn:Hf; [reflexivity | ].
  unfold find_low_quality in Hf.
  eapply find_none in Hf; [ | exact Hin].
  cbv beta in Hf. congruence.
Qed.

(** A question of fewer than 15 characters is rejected whatever its other
    fields. *)
Lemma short_question_rejected (q : pydict) (s : string) :
  Dict.get q "question" = Some (PStr s) ->
  String.length (Str.strip s) < 15 ->
  verdict q = Ok false.
Proof.
  intros Hq Hlen. rewrite verdict_unfold, Hq.
  destruct (negb (Py.truthy (PStr s))); [reflexivity | ].
  cbn [strip_method].
  destruct (Nat.ltb_spec (String.length (Str.strip s)) 15); [reflexivity | lia].
Qed.

(** The question about the capital of France, with four options that are
    not all of two characters or fewer and the index 2, is accepted. *)
Lemma capital_question_accepted (options : list pyval) :
  List.length options = 4 ->
  forallb option_too_short options = false ->
  verdict [("question", PStr "What is the capital of France?");
           ("options", PList options); ("correct_index", PInt 2)] = Ok true.
Proof.
  intros Hlen Hshort. rewrite verdict_unfold.
  cbn [Dict.get String.eqb Ascii.eqb Bool.eqb].
  change (Py.truthy (PStr "What is the capital of France?")) with true.
  cbn [negb strip_method].
  change (Str.strip "What is the capital of France?")
    with "What is the capital of France?".
  change (String.length "What is the capital of France?" <? 15)%nat with false.
  cbv iota.
  change (find_low_quality (Str.lower "What is the capital of France?")) with (@None string).
  cbv iota. rewrite Hlen, Hshort. reflexivity.
Qed.

End ValidatorExamples.

(** ** Words *)

Lemma all_chars_app (p : ascii -> bool) (a b : string) :
  all_chars p (a ++ b) = all_chars p a && all_chars p b.
Proof.
  induction a as [|c a IH]; simpl; [reflexivity | ].
  rewrite IH, andb_assoc. reflexivity.
Qed.

Lemma append_empty_r (s : string) : s ++ EmptyString = s.
Proof. induction s as [|c s IH]; simpl; [reflexivity | rewrite IH; reflexivity]. Qed.

Lemma append_assoc (a b c : string) : (a ++ b) ++ c = a ++ (b ++ c).
Proof. induction a as [|x a IH]; simpl; [reflexivity | rewrite IH; reflexivity]. Qed.

Lemma is_empty_append (a b : string) :
  Str.is_empty (a ++ b) = Str.is_empty a && Str.is_empty b.
Proof. destruct a; reflexivity. Qed.

(** The words that [split] returns are words. *)
Lemma split_from_words (s : string) :
  forall cur,
    all_chars (fun c => negb (Str.isspace c)) cur = true ->
    Forall word (Str.split_from cur s).
Proof.
  induction s as [|c s IH]; intros cur Hcur; simpl.
  - destruct (Str.is_empty cur) eqn:He; constructor; [split; assumption | constructor].
  - destruct (Str.isspace c) eqn:Hc.
    + destruct (Str.is_empty cur) eqn:He.
      * apply IH. reflexivity.
      * constructor; [split; assumption | apply IH; reflexivity].
    + apply IH. rewrite all_chars_app, Hcur. simpl. rewrite Hc. reflexivity.
Qed.

Lemma split_words (s : string) : Forall word (Str.split s).
Proof. apply split_from_words. reflexivity. Qed.

(** Reading a word extends the current one. *)
Lemma split_from_word (w : string) :
  forall cur rest,
    all_chars (fun c => negb (Str.isspace c)) w = true ->
    Str.split_from cur (w ++ rest) = Str.split_from (cur ++ w) rest.
Proof.
  induction w as [|c w IH]; intros cur rest Hw; simpl in *.
  - rewrite append_empty_r. reflexivity.
  - apply andb_prop in Hw. destruct Hw as [Hc Hw].
    apply negb_true_iff in Hc. rewrite Hc.
    rewrite IH by exact Hw. rewrite append_assoc. reflexivity.
Qed.

(** Splitting the words joined by single spaces gives the words back. *)
Lemma split_join (ws : list string) :
  Forall word ws -> Str.split (Str.join " " ws) = ws.
Proof.
  unfold Str.split, Str.join.
  induction 1 as [|w ws [Hne Hw] Hws IH]; [reflexivity | ].
  cbn [String.concat].
  destruct ws as [|w' ws].
  - rewrite <- (append_empty_r w) at 1.
    rewrite split_from_word by exact Hw. cbn [Str.split_from append].
    rewrite Hne. reflexivity.
  - rewrite split_from_word by exact Hw. cbn [append Str.split_from].
    change (Str.isspace " ") with true. cbv iota.
    rewrite Hne. f_equal. exact IH.
Qed.

Lemma Forall_firstn {A} (P : A -> Prop) (n : nat) (l : list A) :
  Forall P l -> Forall P (firstn n l).
Proof.
  intros H. revert n. induction H as [|a l Ha Hl IH]; intros [|n]; simpl;
    constructor; auto.
Qed.

(** Leading and trailing whitespace does not change the words. *)
Lemma split_from_lstrip (s : string) :
  Str.split_from EmptyString (Str.lstrip_by Str.isspace s) = Str.split_from EmptyString s.
Proof.
  induction s as [|c s IH]; simpl; [reflexivity | ].
  destruct (Str.isspace c) eqn:Hc; [exact IH | ].
  simpl. rewrite Hc. reflexivity.
Qed.

Lemma split_from_rstrip (s : string) :
  forall cur,
    Str.split_from cur (Str.rstrip_by Str.isspace s) = Str.split_from cur s.
Proof.
  induction s as [|c s IH]; intros cur; [reflexivity | ].
  cbn [Str.rstrip_by].
  destruct (Str.is_empty (Str.rstrip_by Str.isspace s)) eqn:He;
    destruct (Str.isspace c) eqn:Hc; cbn [andb].
  - pose proof (IH EmptyString) as H0.
    destruct (Str.rstrip_by Str.isspace s); [ | discriminate].
    cbn [Str.split_from]. rewrite Hc. simpl in H0. rewrite <- H0.
    destruct (Str.is_empty cur); reflexivity.
  - cbn [Str.split_from]. rewrite Hc. apply IH.
  - cbn [Str.split_from]. rewrite Hc. rewrite !IH. reflexivity.
  - cbn [Str.split_from]. rewrite Hc. apply IH.
Qed.

Lemma split_strip (s : string) : Str.split (Str.strip s) = Str.split s.
Proof.
  unfold Str.split, Str.strip. rewrite split_from_rstrip. apply split_from_lstrip.
Qed.

(** ** The feedback generator *)

Lemma shorten_feedback_eq (text : string) :
  shorten_feedback text = Str.join " " (firstn 50 (response_words text)).
Proof.
  unfold shorten_feedback, response_words, quotes.
  destruct (Nat.ltb_spec 50
              (List.length (Str.split (Str.strip_chars
                 (String Py.dquote (String Py.squote EmptyString)) (Str.strip text)))));
    [reflexivity | ].
  rewrite firstn_all2 by assumption. reflexivity.
Qed.

Lemma generate_feedback_run (self : AIService) (generate_content : nat -> string -> reply)
      (score total : Z) (topic : string) (questions : list pydict) (answers : list Z)
      (w : world) :
  exists w',
    generate_feedback self generate_content score total topic questions answers w =
      (Ok match generate_content (requests w) (feedback_prompt score total topic) with
          | Text text =>
              if Str.is_empty text
              then fallback_feedback (percentage score total) topic
              else shorten_feedback text
          | Failure _ => fallback_feedback (percentage score total) topic
          end, w')
    /\ requests w' = S (requests w).
Proof.
  unfold generate_feedback, bind, try_except, ret.
  destruct (make_request_run self generate_content (feedback_prompt score total topic) w)
    as (w1 & -> & Hr).
  destruct (generate_content (requests w) (feedback_prompt score total topic)) as [text|err].
  - destruct (Str.is_empty text); eexists; split; try reflexivity; exact Hr.
  - eexists; split; [reflexivity | exact Hr].
Qed.


(** ** Normalization, element by element *)





(** ** The parser follows the strategies of the specification *)














(** ** Texts: prefixes, suffixes, trimming *)


Lemma prefix_cons (c d : ascii) (n s : string) :
  String.prefix (String c n) (String d s) = Ascii.eqb c d && String.prefix n s.
Proof.
  simpl. destruct (ascii_dec c d) as [->|Hn].
  - rewrite Ascii.eqb_refl. reflexivity.
  - apply Ascii.eqb_neq in Hn. rewrite Hn. reflexivity.
Qed.










Lemma contains_prefix (n s : string) :
  Str.contains n s = false -> String.prefix n s = false.
Proof. destruct s; simpl; intros H; apply orb_false_elim in H; tauto. Qed.


Lemma contains_append_l (n a b : string) :
  Str.contains n (a ++ b) = false -> String.prefix n a = false \/ a = EmptyString.
Proof.
  destruct a as [|c a]; [right; reflexivity | ].
  intros H. left. apply contains_prefix in H.
  destruct (String.prefix n (String c a)) eqn:Hp; [ | reflexivity].
  exfalso. revert n H Hp. generalize (String c a) as s. clear.
  induction s as [|d s IH]; intros n H Hp.
  - destruct n; [ | discriminate]. destruct b; discriminate.
  - destruct n as [|e n]; [discriminate | ].
    cbn [append] in H. rewrite prefix_cons in *.
    apply andb_prop in Hp. destruct Hp as [He Hp]. rewrite He in H.
    cbn [andb] in H. eapply IH; eassumption.
Qed.





(** ** The matcher on a fenced block *)














(** ** The lookup in the bank *)

(** The lookup in the bank is by equality of the names. *)
Lemma bank_get_entry (name : string) (qs default : list pydict) :
  In (name, qs) fallback_questions ->
  bank_get fallback_questions name default = qs.
Proof.
  intros H. unfold fallback_questions in H.
  repeat (destruct H as [H|H]; [injection H as <- <-; reflexivity | ]).
  destruct H.
Qed.

Lemma bank_get_default (topic : string) (default : list pydict) :
  ~ In topic (map fst fallback_questions) ->
  bank_get fallback_questions topic default = default.
Proof.
  intros H. unfold fallback_questions in *. cbn [bank_get map fst] in *.
  repeat match goal with
         | |- context [String.eqb topic ?s] =>
             destruct (String.eqb_spec topic s) as [->|_];
             [exfalso; apply H; simpl; tauto | ]
         end.
  reflexivity.
Qed.

(* ================================================================== *)
(** * The claims of the specification *)
(* ================================================================== *)

(** C1. For every topic and every behaviour of the model (any response
    text, an empty response, an error, on any attempt), [generate_quiz]
    raises nothing and returns a list of exactly five question records. *)
Theorem generate_quiz_total {FP : PyFloat} (self : AIService)
        (generate_content : nat -> string -> reply) (topic : string) (w : world) :
  exists quiz w',
    generate_quiz self generate_content topic w = (Ok quiz, w')
    /\ List.length quiz = 5
    /\ Forall (fun q => Dict.keys q = record_keys) quiz.
Proof.
  destruct (generate_quiz_run self generate_content topic w) as (w' & Hrun & _).
  eexists _, w'. split; [exact Hrun | ].
  apply quiz_from_shape.
Qed.

(** C2 (defect of the code). The response below yields five candidates of
    which the first three pass the validator; the specification has the
    quiz made of these three and the fallback questions of slots 4 and 5,
    after one request. The fourth candidate, whose question is a number,
    makes the validator raise: the attempt is given up, the same happens
    at each retry, and the quiz is the fallback one after three requests.
    (When the validator gives a verdict on each of the first five
    candidates the quiz is the specified one: [accepted_attempt_quiz].) *)
Theorem numeric_question_discards_valid_candidates :
  let c1 := Sample.candidate 1 "What is the capital of France?" 0 in
  let c2 := Sample.candidate 2 "What is the capital of Italy?" 2 in
  let c3 := Sample.candidate 3 "What is the capital of Germany?" 3 in
  let c4 := [("id", PInt 4); ("question", PInt 12345);
             ("options", PList [PStr "Paris"; PStr "London"; PStr "Rome"; PStr "Berlin"]);
             ("correct_index", PInt 0)] in
  let c5 := Sample.candidate 5 "What is the capital of England?" 1 in
  parse_outcome Sample.with_numeric_question = Ok (Some [c1; c2; c3; c4; c5])
  /\ verdict (FP := decimal_floats) c1 = Ok true
  /\ verdict (FP := decimal_floats) c2 = Ok true
  /\ verdict (FP := decimal_floats) c3 = Ok true
  /\ verdict (FP := decimal_floats) c4 = Raise AttributeError
  /\ exists w',
       generate_quiz (FP := decimal_floats) Sample.service
                     (Sample.answers Sample.with_numeric_question) "History" empty_world
       = (Ok (_generate_fallback_questions "History"), w')
       /\ requests w' = 3.
Proof.
  cbv zeta. repeat split; try (vm_compute; reflexivity).
  eexists. split; vm_compute; reflexivity.
Qed.

(** C3 (defect of the code). The validator is specified as a predicate that
    yields a verdict on every candidate: rejection on one of four grounds,
    acceptance otherwise. On a candidate whose question is a number it
    gives no verdict: it raises [AttributeError], whatever the service and
    the state. (On the candidates whose question is a text the verdict is
    the specified one: [validator_matches_spec].) *)
Theorem validator_raises_on_numeric_question {FP : PyFloat} (self : AIService) (w : world) :
  let q := [("question", PInt 12345);
            ("options", PList [PStr "Paris"; PStr "London"; PStr "Rome"; PStr "Berlin"]);
            ("correct_index", PInt 2)] in
  fst (_validate_question self q w) = Raise AttributeError.
Proof.
  intros q. rewrite validate_question_outcome.
  eapply verdict_non_text; [reflexivity | reflexivity | discriminate].
Qed.

(** C4. When the model fails on each of the three attempts, the quiz for
    "History" is made of the five fallback questions of that topic, in the
    order of the bank, for the slots 1 to 5; the bank is searched for the
    exact name of the topic (so "History", which has no entry of its own,
    gets the generic templates), and the same holds of every topic. *)
Theorem fallback_quiz_when_transport_fails {FP : PyFloat} (self : AIService)
        (generate_content : nat -> string -> reply) (w : world) :
  max_retries self = 3 ->
  (forall n prompt, requests w <= n < requests w + 3 ->
                    exists err, generate_content n prompt = Failure err) ->
  fst (generate_quiz self generate_content "History" w) =
    Ok [with_id 1 (question_entry "What is a key aspect of History?"
                     ["Knowledge"; "Ignorance"; "Confusion"; "None"] 0);
        with_id 2 (question_entry "Why is History important?"
                     ["Personal growth"; "No reason"; "Waste of time"; "Harmful"] 0);
        with_id 3 (question_entry "How can one learn about History?"
                     ["Reading and practice"; "Sleeping"; "Ignoring it"; "Running away"] 0);
        with_id 4 (question_entry "What skill helps in History?"
                     ["Critical thinking"; "Laziness"; "Procrastination"; "Denial"] 0);
        with_id 5 (question_entry "Who can benefit from History?"
                     ["Everyone"; "No one"; "Only experts"; "Only children"] 0)]
  /\ (forall topic,
        let bank := bank_get fallback_questions topic (default_questions topic) in
        exists w',
          generate_quiz self generate_content topic w =
            (Ok [with_id 1 (nth 0 bank []); with_id 2 (nth 1 bank []);
                 with_id 3 (nth 2 bank []); with_id 4 (nth 3 bank []);
                 with_id 5 (nth 4 bank [])], w')
          /\ requests w' = requests w + 3)
  /\ (forall name qs default,
        In (name, qs) fallback_questions ->
        bank_get fallback_questions name default = qs)
  /\ (forall topic default,
        ~ In topic (map fst fallback_questions) ->
        bank_get fallback_questions topic default = default)
  /\ bank_get fallback_questions "History" (default_questions "History")
     = default_questions "History"
  /\ bank_get fallback_questions "world history" [] = [].
Proof.
  intros Hmax Hfail.
  assert (Hall : forall topic,
             quiz_from generate_content topic (quiz_prompt topic) (max_retries self)
                       (requests w)
             = (_generate_fallback_questions topic, 3)).
  { intros topic. rewrite Hmax. apply quiz_from_all_fail.
    intros k Hk. destruct (Hfail (requests w + k) (quiz_prompt topic)) as [err ->]; [lia | ].
    apply failure_fails. }
  split; [ | split; [ | split; [ | split; [ | split]]]].
  - destruct (generate_quiz_run self generate_content "History" w) as (w' & -> & _).
    rewrite Hall. reflexivity.
  - intros topic bank.
    destruct (generate_quiz_run self generate_content topic w) as (w' & -> & Hreq).
    rewrite Hall in *. exists w'. split; [ | exact Hreq].
    cbn [fst]. unfold _generate_fallback_questions, _generate_fallback_question.
    subst bank. destruct (bank_get_shape topic) as [-> _]. reflexivity.
  - intros name qs default. apply bank_get_entry.
  - intros topic default. apply bank_get_default.
  - reflexivity.
  - reflexivity.
Qed.

(** C4 on a run: a model that is never available. *)
Lemma fallback_quiz_when_transport_fails_witness :
  max_retries (AIService_init "key" default_model) = 3
  /\ fst (generate_quiz (FP := decimal_floats) (AIService_init "key" default_model)
            (fun _ _ => Failure "unavailable") "History" empty_world)
     = Ok (map (fun i => with_id (Z.of_nat i)
                           (nth (i - 1) (default_questions "History") []))
               [1; 2; 3; 4; 5]).
Proof.
  split; [reflexivity | ].
  apply (fallback_quiz_when_transport_fails (FP := decimal_floats)
           (AIService_init "key" default_model)
           (fun _ _ => Failure "unavailable") empty_world).
  - reflexivity.
  - intros n prompt _. exists "unavailable". reflexivity.
Defined.


(** When a candidate other than the last ones is rejected, the candidates
    after it keep their positions as ids and a padded question takes an id
    already in use. *)
Example rejected_candidate_shifts_no_id :
  exists quiz w',
    generate_quiz (FP := decimal_floats) Sample.service
                  (Sample.answers Sample.with_short_question) "History" empty_world
    = (Ok quiz, w')
    /\ ids quiz = [Some (PInt 1); Some (PInt 3); Some (PInt 4);
                   Some (PInt 5); Some (PInt 5)].
Proof.
  eexists _, _. split; [vm_compute; reflexivity | reflexivity].
Qed.




(** Of two fenced blocks the parser returns the first. *)
Example first_of_two_blocks :
  parse_outcome Sample_two_blocks
  = Ok (Some [Sample.candidate 1 "What is the capital of France?" 0]).
Proof. vm_compute. reflexivity. Qed.

(** A fenced block that holds the empty array gives no candidate list. *)
Example empty_fenced_array : parse_outcome Sample_empty_array = Ok None.
Proof. vm_compute. reflexivity. Qed.





(** C8. On a non-empty response, [generate_feedback] trims the whitespace
    and the quotes around the text, splits it into words, keeps the first
    50 and joins them with single spaces: the words of the feedback are
    these, it never has more than 50, and of a response of 80 words it is
    the first 50 joined by spaces. *)
Theorem feedback_keeps_first_fifty_words (self : AIService)
        (generate_content : nat -> string -> reply)
        (score total : Z) (topic : string) (questions : list pydict) (answers : list Z)
        (w : world) (text : string) :
  generate_content (requests w) (feedback_prompt score total topic) = Text text ->
  Str.is_empty text = false ->
  exists feedback,
    fst (generate_feedback self generate_content score total topic questions answers w)
    = Ok feedback
    /\ feedback = Str.join " " (firstn 50 (response_words text))
    /\ Str.split feedback = firstn 50 (response_words text)
    /\ List.length (Str.split feedback) <= 50
    /\ (List.length (response_words text) = 80 ->
        List.length (Str.split feedback) = 50)
    /\ (Str.strip_chars quotes (Str.strip text) = Str.strip text ->
        feedback = Str.join " " (firstn 50 (Str.split text))).
Proof.
  intros Hreply Hne.
  destruct (generate_feedback_run self generate_content score total topic
              questions answers w) as (w' & Hrun & _).
  rewrite Hreply, Hne in Hrun.
  exists (shorten_feedback text). rewrite Hrun. cbn [fst].
  rewrite shorten_feedback_eq.
  assert (Hsplit : Str.split (Str.join " " (firstn 50 (response_words text)))
                   = firstn 50 (response_words text)).
  { apply split_join, Forall_firstn, split_words. }
  repeat split.
  - exact Hsplit.
  - rewrite Hsplit, length_firstn. lia.
  - intros H80. rewrite Hsplit, length_firstn, H80. reflexivity.
  - intros Hq. unfold response_words. rewrite Hq, split_strip. reflexivity.
Qed.

(** C8 on a run: a short response between quotes. *)
Lemma feedback_keeps_first_fifty_words_witness :
  exists feedback,
    fst (generate_feedback Sample.service
           (Sample.answers "  'Well done, you   know your history'  ")
           4 5 "History" [] [] empty_world)
    = Ok feedback
    /\ feedback = "Well done, you know your history".
Proof.
  destruct (feedback_keeps_first_fifty_words Sample.service
              (Sample.answers "  'Well done, you   know your history'  ")
              4 5 "History" [] [] empty_world
              (text := "  'Well done, you   know your history'  ")
              eq_refl eq_refl)
    as (feedback & Hrun & Heq & _).
  exists feedback. split; [exact Hrun | ].
  rewrite Heq. reflexivity.
Defined.



